(** * hitomi: the gateway client and its bounded cache

    A shallow embedding of three source files of the repository:

    - [Collection] (the class [Collection extends Map]),
    - [Shard] (src/client/gateway/Shard.js, the class [Shard]),
    - [GatewayManager] (src/client/gateway/GatewayManager.js).

    JavaScript numbers that the code only uses as integers are [Z];
    strings are [string]; a value that may be [null] or [undefined] is an
    [option], unless the code tells the two apart.  A method that may throw
    returns a [completion]. *)

From Stdlib Require Import ZArith List String Bool Lia.
Import ListNotations.
Open Scope string_scope.
Open Scope Z_scope.

(** ** JavaScript completions *)

Module Js.

Inductive error : Type :=
| TypeError (message : string)
| Error (message : string).

(** A call either returns a value or throws. *)
Inductive completion (A : Type) : Type :=
| Return (a : A)
| Throw (e : error).

Arguments Return {A} a.
Arguments Throw {A} e.

(** What a JavaScript expression of entity type [V] may evaluate to. *)
Inductive value (V : Type) : Type :=
| Undefined
| Null
| Value (v : V).

Arguments Undefined {V}.
Arguments Null {V}.
Arguments Value {V} v.

End Js.

Import Js.

(** ** Collection *)

Module Collection.

(** [this.limit] is a JavaScript number: the sample configuration passes
    [Infinity], the constructor defaults to [100]. *)
Inductive Limit : Type :=
| Finite (n : Z)
| Infinity.

(** [this.limit === 0] *)
Definition is_zero (l : Limit) : bool :=
  match l with
  | Finite n => n =? 0
  | Infinity => false
  end.

(** [this.limit && this.size > this.limit]: the limit is truthy (not 0)
    and the size is greater than it. *)
Definition exceeded (size : Z) (l : Limit) : bool :=
  match l with
  | Finite n => negb (n =? 0) && (n <? size)
  | Infinity => false
  end.

(** A value handed to [Map.prototype.delete] as key.  Keys are compared by
    SameValueZero: a string equals a string with the same characters, an
    object (here an array) equals only itself. *)
Inductive KeyArg : Type :=
| StringKey (k : string)
| FreshArray (elements : list string).

(** [array.slice(-1)]: a new array holding the last element, if any. *)
Definition slice_last {A : Type} (l : list A) : list A :=
  skipn (List.length l - 1)%nat l.

Section Items.

(** The entities held by the cache. *)
Variable V : Type.

(** The native [Map] the class extends: insertion-ordered, string keys
    (the ids [add] is documented to take). *)
Definition Map : Type := list (string * V).

Fixpoint Map_get (k : string) (m : Map) : option V :=
  match m with
  | [] => None
  | (k', v) :: m' => if String.eqb k k' then Some v else Map_get k m'
  end.

Definition Map_has (k : string) (m : Map) : bool :=
  existsb (fun e => String.eqb k (fst e)) m.

(** [set] keeps the position of a key that is present, and appends a
    new key. *)
Fixpoint Map_set (k : string) (v : V) (m : Map) : Map :=
  match m with
  | [] => [(k, v)]
  | (k', v') :: m' =>
      if String.eqb k k' then (k', v) :: m' else (k', v') :: Map_set k v m'
  end.

Definition Map_delete (a : KeyArg) (m : Map) : Map :=
  match a with
  | StringKey k => List.filter (fun e => negb (String.eqb k (fst e))) m
  | FreshArray _ => m
  end.

Definition Map_keys (m : Map) : list string := List.map fst m.
Definition Map_values (m : Map) : list V := List.map snd m.
Definition Map_size (m : Map) : Z := Z.of_nat (List.length m).

(** The result of [this.get(k)] as a JavaScript value. *)
Definition get_value (k : string) (m : Map) : value V :=
  match Map_get k m with
  | Some v => Value v
  | None => Undefined
  end.

(** The options object kept in [this.cache]; the fields are those of
    [cache.users] in the sample configuration. *)
Record CacheOptions : Type := {
  sweep : option Z;
  sweepTimeout : option Z;
  toAdd : option (V -> string -> bool);
  toRemove : option (V -> string -> bool)
}.

Record Collection : Type := {
  limit : Limit;
  cache : CacheOptions;
  entries : Map
}.

Definition size (c : Collection) : Z := Map_size (entries c).

Definition with_entries (m : Map) (c : Collection) : Collection :=
  {| limit := limit c; cache := cache c; entries := m |}.

(** [constructor (cache = {}, limit = 100)].  The map starts empty, so
    the sweep the constructor may start finds nothing to delete. *)
Definition new (cache : CacheOptions) (limit : Limit) : Collection :=
  {| limit := limit; cache := cache; entries := [] |}.

(** [add (id, item)]; [None] is an id that is [== undefined]. *)
Definition add (id : option string) (item : V) (c : Collection)
  : completion (value V) * Collection :=
  if is_zero (limit c) then (Return (Value item), c)
  else
    match id with
    | None => (Throw (Error "Missing id"), c)
    | Some k =>
        if Map_has k (entries c) then (Return (get_value k (entries c)), c)
        else
          let m :=
            if exceeded (size c) (limit c)
            then Map_delete (FreshArray (slice_last (Map_keys (entries c))))
                            (entries c)
            else entries c in
          (Return (Value item), with_entries (Map_set k item m) c)
    end.

(** What a [for ... of] loop is given to iterate. *)
Inductive Iterated : Type :=
| FunctionObject (name : string)
| Iterator (items : list V).

(** [for (const item of x) body]: a function object has no
    [Symbol.iterator], so iterating it throws. *)
Definition for_of {S : Type} (x : Iterated) (body : V -> S -> S) (init : S)
  : completion S :=
  match x with
  | FunctionObject name => Throw (TypeError (name ++ " is not iterable"))
  | Iterator items =>
      Return (fold_left (fun acc item => body item acc) items init)
  end.

(** [this.values]: the method itself. *)
Definition values_property (c : Collection) : Iterated :=
  FunctionObject "this.values".

(** [this.values()]: the iterator over the stored values. *)
Definition values_call (c : Collection) : Iterated :=
  Iterator (Map_values (entries c)).

(** [filter (func)] *)
Definition filter (func : V -> bool) (c : Collection)
  : completion (list V) * Collection :=
  (for_of (values_property c)
          (fun item array =>
             if func item then (array ++ [item])%list else array)
          [],
   c).

(** [map (func)] *)
Definition map {B : Type} (func : V -> B) (c : Collection)
  : completion (list B) * Collection :=
  (for_of (values_call c) (fun item array => (array ++ [func item])%list) [],
   c).

(** [remove (item)]; the argument is [item.id], [None] when the item has
    no id. *)
Definition remove (item_id : option string) (c : Collection)
  : value V * Collection :=
  match item_id with
  | None => (Null, c)
  | Some k =>
      if negb (Map_has k (entries c)) then (Null, c)
      else
        let m := Map_delete (StringKey k) (entries c) in
        (get_value k m, with_entries m c)
  end.

(** A sequence of [add] calls, first to last, each with a string id. *)
Fixpoint add_all (items : list (string * V)) (c : Collection) : Collection :=
  match items with
  | [] => c
  | (k, item) :: items' => add_all items' (snd (add (Some k) item c))
  end.

(** [removedItems >= this.cache.sweep]; a comparison with [undefined] is
    false. *)
Definition quota_reached (removedItems : Z) (quota : option Z) : bool :=
  match quota with
  | Some q => q <=? removedItems
  | None => false
  end.

(** The loop of [#sweep] over [this.entries()].  The iterator is live, and
    the only entry deleted during a step is the one just visited, so the
    entries still to visit are always [pending].  [toRemove] is
    [this.cache.toRemove] as the loop applies it: to the id first, then the
    item. *)
Fixpoint sweep_loop (toRemove : option (string -> V -> bool)) (quota : option Z)
  (pending : Map) (removedItems : Z) (m : Map) : completion unit * Map :=
  match pending with
  | [] => (Return tt, m)
  | (id, item) :: pending' =>
      if quota_reached removedItems quota then (Return tt, m)
      else
        match toRemove with
        | None =>
            (Throw (TypeError "this.cache.toRemove is not a function"), m)
        | Some predicate =>
            if predicate id item
            then sweep_loop toRemove quota pending' (removedItems + 1)
                            (Map_delete (StringKey id) m)
            else sweep_loop toRemove quota pending' removedItems m
        end
  end.

(** [#sweep ()]: the completion, the collection, and the delays of the
    timers set (the sweep re-arms itself unless it throws). *)
Definition private_sweep (toRemove : option (string -> V -> bool))
  (c : Collection) : completion unit * Collection * list Z :=
  match sweep_loop toRemove (sweep (cache c)) (entries c) 0 (entries c) with
  | (Return _, m) => (Return tt, with_entries m c, [10000])
  | (Throw e, m) => (Throw e, with_entries m c, [])
  end.

End Items.

Arguments Map_get {V}.
Arguments Map_has {V}.
Arguments Map_set {V}.
Arguments Map_delete {V}.
Arguments Map_keys {V}.
Arguments Map_values {V}.
Arguments Map_size {V}.
Arguments get_value {V}.
Arguments sweep {V}.
Arguments sweepTimeout {V}.
Arguments toAdd {V}.
Arguments toRemove {V}.
Arguments limit {V}.
Arguments cache {V}.
Arguments entries {V}.
Arguments size {V}.
Arguments with_entries {V}.
Arguments new {V}.
Arguments add {V}.
Arguments add_all {V}.
Arguments sweep_loop {V}.
Arguments private_sweep {V}.
Arguments filter {V}.
Arguments map {V B}.
Arguments remove {V}.

End Collection.

(** ** What the gateway classes share *)

Module Gateway.

(** [Constants.OP_CODES] lives in utils/Constants, which is not among the
    sources at hand: the table is a parameter of the model. *)
Record OP_CODES : Type := {
  EVENT : Z;
  HEARTBEAT : Z;
  IDENTIFY : Z;
  RESUME : Z;
  HEARTBEAT_ACK : Z;
  HELLO : Z;
  INVALID_SESSION : Z
}.

Record WsOptions : Type := { version : Z }.

Record ClientOptions : Type := {
  intents : Z;
  shardCount : Z;
  shards : list Z;
  ws : WsOptions;
  autoReconnect : bool;
  blockedEvents : list string
}.

Record Client : Type := {
  token : string;
  options : ClientOptions
}.

(** [packet.t] *)
Inductive EventType : Type :=
| t_undefined
| t_null
| t_name (name : string).

(** [packet.d], as far as the gateway looks into it. *)
Inductive Payload : Type :=
| d_undefined
| d_null
| d_boolean (b : bool)
| d_number (n : Z)
| d_object (session_id : option string) (heartbeat_interval : option Z).

(** A decoded frame [{ op, d, s, t }]. *)
Record Packet : Type := {
  op : Z;
  d : Payload;
  s : option Z;
  t : EventType
}.

(** Truthiness of [packet.d]. *)
Definition truthy (p : Payload) : bool :=
  match p with
  | d_undefined | d_null => false
  | d_boolean b => b
  | d_number n => negb (n =? 0)
  | d_object _ _ => true
  end.

(** [packet.d?.heartbeat_interval] when it is truthy. *)
Definition heartbeat_interval_of (p : Payload) : option Z :=
  match p with
  | d_object _ (Some ms) => if ms =? 0 then None else Some ms
  | _ => None
  end.

(** A non-empty string is truthy; [null], [undefined] and the empty
    string are not. *)
Definition truthy_string (x : option string) : bool :=
  match x with
  | Some str => negb (String.eqb str EmptyString)
  | None => false
  end.

End Gateway.

(** ** Shard

    Shard.js holds the class twice; the model follows the first copy, the
    one whose [disconnect] also resets the sequence. *)

Module Shard.

Import Gateway.

(** [this.status]; ["CONNECTED"] is what [connect] sets while the socket is
    still connecting. *)
Inductive Status : Type := IDLE | CONNECTED | OPEN | READY | CLOSED.

Definition Status_eqb (a b : Status) : bool :=
  match a, b with
  | IDLE, IDLE | CONNECTED, CONNECTED | OPEN, OPEN
  | READY, READY | CLOSED, CLOSED => true
  | _, _ => false
  end.

(** The [ws] socket object; whether its [terminate()] throws is up to the
    transport. *)
Record Websocket : Type := { terminate_throws : bool }.

(** The fields of a shard.  [lastHeartbeatAck] and [lastHeartbeatReceived]
    are not set by the constructor: they are [undefined] ([None]) until
    first assigned.  [heartbeatInterval] holds the armed interval timer,
    represented by its period. *)
Record Shard : Type := {
  id : Z;
  sequence : Z;
  sessionId : option string;
  lastHeartbeatAcked : bool;
  lastHeartbeatAck : option bool;
  lastHeartbeatReceived : option Z;
  heartbeatInterval : option Z;
  reconnectInterval : Z;
  reconnectAttempts : Z;
  status : Status;
  connection : option Websocket
}.

Definition set_sequence (x : Z) (s : Shard) : Shard :=
  {| id := id s; sequence := x; sessionId := sessionId s;
     lastHeartbeatAcked := lastHeartbeatAcked s;
     lastHeartbeatAck := lastHeartbeatAck s;
     lastHeartbeatReceived := lastHeartbeatReceived s;
     heartbeatInterval := heartbeatInterval s;
     reconnectInterval := reconnectInterval s;
     reconnectAttempts := reconnectAttempts s; status := status s;
     connection := connection s |}.

Definition set_sessionId (x : option string) (s : Shard) : Shard :=
  {| id := id s; sequence := sequence s; sessionId := x;
     lastHeartbeatAcked := lastHeartbeatAcked s;
     lastHeartbeatAck := lastHeartbeatAck s;
     lastHeartbeatReceived := lastHeartbeatReceived s;
     heartbeatInterval := heartbeatInterval s;
     reconnectInterval := reconnectInterval s;
     reconnectAttempts := reconnectAttempts s; status := status s;
     connection := connection s |}.

Definition set_lastHeartbeatAcked (x : bool) (s : Shard) : Shard :=
  {| id := id s; sequence := sequence s; sessionId := sessionId s;
     lastHeartbeatAcked := x; lastHeartbeatAck := lastHeartbeatAck s;
     lastHeartbeatReceived := lastHeartbeatReceived s;
     heartbeatInterval := heartbeatInterval s;
     reconnectInterval := reconnectInterval s;
     reconnectAttempts := reconnectAttempts s; status := status s;
     connection := connection s |}.

Definition set_lastHeartbeatAck (x : option bool) (s : Shard) : Shard :=
  {| id := id s; sequence := sequence s; sessionId := sessionId s;
     lastHeartbeatAcked := lastHeartbeatAcked s; lastHeartbeatAck := x;
     lastHeartbeatReceived := lastHeartbeatReceived s;
     heartbeatInterval := heartbeatInterval s;
     reconnectInterval := reconnectInterval s;
     reconnectAttempts := reconnectAttempts s; status := status s;
     connection := connection s |}.

Definition set_lastHeartbeatReceived (x : option Z) (s : Shard) : Shard :=
  {| id := id s; sequence := sequence s; sessionId := sessionId s;
     lastHeartbeatAcked := lastHeartbeatAcked s;
     lastHeartbeatAck := lastHeartbeatAck s; lastHeartbeatReceived := x;
     heartbeatInterval := heartbeatInterval s;
     reconnectInterval := reconnectInterval s;
     reconnectAttempts := reconnectAttempts s; status := status s;
     connection := connection s |}.

Definition set_heartbeatInterval (x : option Z) (s : Shard) : Shard :=
  {| id := id s; sequence := sequence s; sessionId := sessionId s;
     lastHeartbeatAcked := lastHeartbeatAcked s;
     lastHeartbeatAck := lastHeartbeatAck s;
     lastHeartbeatReceived := lastHeartbeatReceived s; heartbeatInterval := x;
     reconnectInterval := reconnectInterval s;
     reconnectAttempts := reconnectAttempts s; status := status s;
     connection := connection s |}.

Definition set_reconnectInterval (x : Z) (s : Shard) : Shard :=
  {| id := id s; sequence := sequence s; sessionId := sessionId s;
     lastHeartbeatAcked := lastHeartbeatAcked s;
     lastHeartbeatAck := lastHeartbeatAck s;
     lastHeartbeatReceived := lastHeartbeatReceived s;
     heartbeatInterval := heartbeatInterval s; reconnectInterval := x;
     reconnectAttempts := reconnectAttempts s; status := status s;
     connection := connection s |}.

Definition set_reconnectAttempts (x : Z) (s : Shard) : Shard :=
  {| id := id s; sequence := sequence s; sessionId := sessionId s;
     lastHeartbeatAcked := lastHeartbeatAcked s;
     lastHeartbeatAck := lastHeartbeatAck s;
     lastHeartbeatReceived := lastHeartbeatReceived s;
     heartbeatInterval := heartbeatInterval s;
     reconnectInterval := reconnectInterval s; reconnectAttempts := x;
     status := status s; connection := connection s |}.

Definition set_status (x : Status) (s : Shard) : Shard :=
  {| id := id s; sequence := sequence s; sessionId := sessionId s;
     lastHeartbeatAcked := lastHeartbeatAcked s;
     lastHeartbeatAck := lastHeartbeatAck s;
     lastHeartbeatReceived := lastHeartbeatReceived s;
     heartbeatInterval := heartbeatInterval s;
     reconnectInterval := reconnectInterval s;
     reconnectAttempts := reconnectAttempts s; status := x;
     connection := connection s |}.

Definition set_connection (x : option Websocket) (s : Shard) : Shard :=
  {| id := id s; sequence := sequence s; sessionId := sessionId s;
     lastHeartbeatAcked := lastHeartbeatAcked s;
     lastHeartbeatAck := lastHeartbeatAck s;
     lastHeartbeatReceived := lastHeartbeatReceived s;
     heartbeatInterval := heartbeatInterval s;
     reconnectInterval := reconnectInterval s;
     reconnectAttempts := reconnectAttempts s; status := status s;
     connection := x |}.

(** [constructor (manager, id)] *)
Definition new (id : Z) : Shard :=
  {| id := id; sequence := -1; sessionId := None;
     lastHeartbeatAcked := true; lastHeartbeatAck := None;
     lastHeartbeatReceived := None; heartbeatInterval := None;
     reconnectInterval := 3000; reconnectAttempts := 0;
     status := IDLE; connection := None |}.

(** The payload of an outgoing frame. *)
Inductive Data : Type :=
| HeartbeatData (sequence : Z)
| IdentifyData (token : string) (intents : Z) (shard : Z * Z) (v : Z)
               (os browser device : string)
| ResumeData (token : string) (session_id : string) (seq : Z).

Record Message : Type := { m_op : Z; m_d : Data }.

(** What a method does to the outside, in order. *)
Inductive Effect : Type :=
| NewWebsocket (url : string)
| WsSend (data : Message)
| WsTerminate
| Emit_connectionClosed (code : Z) (reason : string) (id : Z)
| Emit_connect (id : Z)
| Emit_disconnect (reason : string)
| ClientEmit_shardError (id : Z)
| SetInterval_sendHeartbeat (ms : Z)
| ClearInterval
| SetTimeout_connect (ms : Z)
| Manager_handlePacket (packet : Packet).

(** A method body: it reads and writes [this], performs effects, and
    returns or throws.  Assignments made before a throw persist. *)
Definition M (A : Type) : Type := Shard -> completion A * Shard * list Effect.

Definition ret {A : Type} (a : A) : M A := fun this => (Return a, this, []).

Definition bind {A B : Type} (m : M A) (f : A -> M B) : M B :=
  fun this =>
    match m this with
    | (Return a, this1, l1) =>
        match f a this1 with
        | (r, this2, l2) => (r, this2, (l1 ++ l2)%list)
        end
    | (Throw e, this1, l1) => (Throw e, this1, l1)
    end.

Definition get : M Shard := fun this => (Return this, this, []).

Definition modify (f : Shard -> Shard) : M unit :=
  fun this => (Return tt, f this, []).

Definition perform (e : Effect) : M unit :=
  fun this => (Return tt, this, [e]).

Definition throw {A : Type} (e : error) : M A :=
  fun this => (Throw e, this, []).

Definition when (b : bool) (m : M unit) : M unit :=
  if b then m else ret tt.

Declare Scope shard_scope.
Delimit Scope shard_scope with shard.
Notation "x <- m ;; k" := (bind m (fun x => k))
  (at level 61, m at next level, right associativity) : shard_scope.
Notation "m ;; k" := (bind m (fun _ => k))
  (at level 61, right associativity) : shard_scope.
Open Scope shard_scope.

Section Methods.

Variable OP_CODES : Gateway.OP_CODES.

(** [this.manager.websocketURL], [this.manager.client] and
    [process.platform]. *)
Variable websocketURL : string.
Variable client : Client.
Variable platform : string.

(** [connect ()]; [socket] is the object [new Websocket(...)] yields.
    The four [on] registrations are what later delivers the
    [websocket...] calls. *)
Definition connect (socket : Websocket) : M unit :=
  this <- get ;;
  if negb (Status_eqb (status this) IDLE) then ret tt
  else
    perform (NewWebsocket websocketURL) ;;
    modify (set_connection (Some socket)) ;;
    modify (set_status CONNECTED).

(** [sendWebsocketMessage (data)]; with no socket, [this.connection.send]
    is a property read on [null]. *)
Definition sendWebsocketMessage (data : Message) : M unit :=
  this <- get ;;
  if negb (Status_eqb (status this) CLOSED) then
    match connection this with
    | Some _ => perform (WsSend data)
    | None =>
        throw (TypeError "Cannot read properties of null (reading 'send')")
    end
  else ret tt.

(** [identify ()] *)
Definition identify : M unit :=
  this <- get ;;
  sendWebsocketMessage
    {| m_op := IDENTIFY OP_CODES;
       m_d := IdentifyData (token client) (intents (options client))
                (id this, shardCount (options client))
                (version (ws (options client)))
                platform "hitomi" "hitomi" |}.

(** [sendHeartbeat ()] *)
Definition sendHeartbeat : M unit :=
  modify (set_lastHeartbeatAcked false) ;;
  this <- get ;;
  sendWebsocketMessage
    {| m_op := HEARTBEAT OP_CODES; m_d := HeartbeatData (sequence this) |}.

(** [disconnect (reconnect = false)] *)
Definition disconnect (reconnect : bool) : M unit :=
  this <- get ;;
  match connection this with
  | None => ret tt
  | Some socket =>
      match heartbeatInterval this with
      | Some _ => perform ClearInterval ;; modify (set_heartbeatInterval None)
      | None => ret tt
      end ;;
      if terminate_throws socket then perform (ClientEmit_shardError (id this))
      else
        perform WsTerminate ;;
        modify (set_connection None) ;;
        perform (Emit_disconnect "ASKED") ;;
        this <- get ;;
        when (truthy_string (sessionId this)) (modify (set_sessionId None)) ;;
        this <- get ;;
        when (negb (sequence this =? 0)) (modify (set_sequence (-1))) ;;
        if reconnect && autoReconnect (options client) then
          this <- get ;;
          if 5 <=? reconnectAttempts this
          then perform (Emit_disconnect "ATTEMPTS_ULTRAPASSED")
          else
            perform (SetTimeout_connect (reconnectInterval this)) ;;
            modify (set_reconnectInterval (reconnectInterval this + 3000)) ;;
            this <- get ;;
            modify (set_reconnectAttempts (reconnectAttempts this + 1))
        else ret tt
  end.

(** [websocketCloseConnection (code, reason)] *)
Definition websocketCloseConnection (code : Z) (reason : string) : M unit :=
  modify (set_status CLOSED) ;;
  this <- get ;;
  perform (Emit_connectionClosed code reason (id this)) ;;
  disconnect true.

(** [websocketError (error)] *)
Definition websocketError : M unit :=
  this <- get ;;
  perform (ClientEmit_shardError (id this)).

(** [websocketConnectionOpen ()] *)
Definition websocketConnectionOpen : M unit :=
  modify (set_status OPEN) ;;
  this <- get ;;
  perform (Emit_connect (id this)) ;;
  modify (set_lastHeartbeatAck (Some true)).

(** The first [switch] of [packetReceive], on [packet.t]. *)
Definition packetReceive_t (packet : Packet) : M unit :=
  match t packet with
  | t_name name =>
      if String.eqb name "READY" then
        session_id <-
          match d packet with
          | d_undefined | d_null =>
              throw (TypeError "Cannot read properties (reading 'session_id')")
          | d_object session_id _ => ret session_id
          | d_boolean _ | d_number _ => ret None
          end ;;
        modify (set_sessionId session_id) ;;
        modify (set_status READY) ;;
        modify (set_lastHeartbeatAcked true) ;;
        sendHeartbeat
      else ret tt
  | t_undefined | t_null => ret tt
  end.

(** The second [switch] of [packetReceive], on [packet.op]: the first
    case label that equals it is taken.  [now] is [Date.now()]. *)
Definition packetReceive_op (now : Z) (packet : Packet) : M unit :=
  if op packet =? EVENT OP_CODES then perform (Manager_handlePacket packet)
  else if op packet =? HEARTBEAT OP_CODES then sendHeartbeat
  else if op packet =? HEARTBEAT_ACK OP_CODES then
    modify (set_lastHeartbeatAck (Some true)) ;;
    modify (set_lastHeartbeatReceived (Some now))
  else if op packet =? HELLO OP_CODES then
    match heartbeat_interval_of (d packet) with
    | Some ms =>
        this <- get ;;
        match heartbeatInterval this with
        | Some _ => perform ClearInterval
        | None => ret tt
        end ;;
        perform (SetInterval_sendHeartbeat ms) ;;
        modify (set_heartbeatInterval (Some ms))
    | None => ret tt
    end ;;
    this <- get ;;
    match sessionId this with
    | Some session_id =>
        if negb (String.eqb session_id EmptyString) then
          sendWebsocketMessage
            {| m_op := RESUME OP_CODES;
               m_d := ResumeData (token client) session_id (sequence this) |}
        else identify ;; sendHeartbeat
    | None => identify ;; sendHeartbeat
    end
  else if op packet =? INVALID_SESSION OP_CODES then
    modify (set_sessionId None) ;;
    modify (set_sequence 0) ;;
    if truthy (d packet) then identify else ret tt
  else ret tt.

(** [packetReceive (packet)] *)
Definition packetReceive (now : Z) (packet : Packet) : M unit :=
  match s packet with
  | Some n => when (negb (n =? 0)) (modify (set_sequence n))
  | None => ret tt
  end ;;
  packetReceive_t packet ;;
  packetReceive_op now packet.

(** [websocketMessageReceive (data)]; the argument is the frame that
    [Erlpack.unpack] or [JSON.parse] decodes from [data]. *)
Definition websocketMessageReceive (now : Z) (packet : Packet) : M unit :=
  packetReceive now packet.

(** A call of one of the methods, by a socket event, a timer or a
    caller. *)
Inductive Call : Type :=
| call_connect (socket : Websocket)
| call_websocketCloseConnection (code : Z) (reason : string)
| call_websocketError
| call_websocketMessageReceive (now : Z) (packet : Packet)
| call_websocketConnectionOpen
| call_packetReceive (now : Z) (packet : Packet)
| call_identify
| call_sendHeartbeat
| call_sendWebsocketMessage (data : Message)
| call_disconnect (reconnect : bool).

Definition call (c : Call) : M unit :=
  match c with
  | call_connect socket => connect socket
  | call_websocketCloseConnection code reason =>
      websocketCloseConnection code reason
  | call_websocketError => websocketError
  | call_websocketMessageReceive now packet =>
      websocketMessageReceive now packet
  | call_websocketConnectionOpen => websocketConnectionOpen
  | call_packetReceive now packet => packetReceive now packet
  | call_identify => identify
  | call_sendHeartbeat => sendHeartbeat
  | call_sendWebsocketMessage data => sendWebsocketMessage data
  | call_disconnect reconnect => disconnect reconnect
  end.

(** The shard and the effects after a sequence of calls; a call that
    throws leaves the shard as it was at the throw. *)
Fixpoint run (calls : list Call) (this : Shard) : Shard * list Effect :=
  match calls with
  | [] => (this, [])
  | c :: calls' =>
      match call c this with
      | (_, this1, l1) =>
          match run calls' this1 with
          | (this2, l2) => (this2, (l1 ++ l2)%list)
          end
      end
  end.

End Methods.

(** The delays of the reconnects scheduled among some effects. *)
Fixpoint scheduled_reconnects (l : list Effect) : list Z :=
  match l with
  | [] => []
  | SetTimeout_connect ms :: l' => ms :: scheduled_reconnects l'
  | _ :: l' => scheduled_reconnects l'
  end.

(** The frames sent among some effects. *)
Fixpoint sent (l : list Effect) : list Message :=
  match l with
  | [] => []
  | WsSend data :: l' => data :: sent l'
  | _ :: l' => sent l'
  end.

(** The sockets opened among some effects. *)
Fixpoint opened (l : list Effect) : list string :=
  match l with
  | [] => []
  | NewWebsocket url :: l' => url :: opened l'
  | _ :: l' => opened l'
  end.

(** The frames handed to [this.manager.handlePacket] among some effects. *)
Fixpoint forwarded (l : list Effect) : list Packet :=
  match l with
  | [] => []
  | Manager_handlePacket packet :: l' => packet :: forwarded l'
  | _ :: l' => forwarded l'
  end.

(** The periods of the heartbeat timers armed among some effects, and the
    number of timers cancelled. *)
Fixpoint intervals_set (l : list Effect) : list Z :=
  match l with
  | [] => []
  | SetInterval_sendHeartbeat ms :: l' => ms :: intervals_set l'
  | _ :: l' => intervals_set l'
  end.

Fixpoint intervals_cleared (l : list Effect) : nat :=
  match l with
  | [] => O
  | ClearInterval :: l' => S (intervals_cleared l')
  | _ :: l' => intervals_cleared l'
  end.

(** The parts of what a method call yields. *)
Definition completion_of {A : Type} (x : completion A * Shard * list Effect)
  : completion A := fst (fst x).

Definition state_after {A : Type} (x : completion A * Shard * list Effect)
  : Shard := snd (fst x).

Definition effects_of {A : Type} (x : completion A * Shard * list Effect)
  : list Effect := snd x.

(** What the methods other than [connect], [disconnect] and
    [websocketCloseConnection] leave alone. *)
Definition unchanged (this this' : Shard) : Prop :=
  reconnectInterval this' = reconnectInterval this /\
  reconnectAttempts this' = reconnectAttempts this /\
  connection this' = connection this /\
  (status this <> IDLE -> status this' <> IDLE).

(** A method is quiet when it leaves the backoff state and the socket
    alone, never makes the shard idle, schedules no reconnect and opens
    no socket. *)
Definition quiet {A : Type} (m : M A) : Prop :=
  forall this r this' l,
    m this = (r, this', l) ->
    unchanged this this' /\ scheduled_reconnects l = [] /\ opened l = [].

(** The backoff state a shard can be in: untouched, or one reconnect
    scheduled, the socket gone and the shard no longer idle. *)
Definition backoff_invariant (this : Shard) : Prop :=
  (connection this <> None -> status this <> IDLE) /\
  (reconnectAttempts this = 0 /\ reconnectInterval this = 3000 \/
   reconnectAttempts this = 1 /\ reconnectInterval this = 6000 /\
   connection this = None /\ status this <> IDLE).

End Shard.

(** ** GatewayManager *)

Module GatewayManager.

Import Gateway.

(** [array.includes(packet.t)] for an array of strings. *)
Definition includes (l : list string) (t : EventType) : bool :=
  match t with
  | t_name name => existsb (String.eqb name) l
  | t_undefined | t_null => false
  end.

(** The property key that [packet.t] is converted to in
    [PacketHandlers[packet.t]]. *)
Definition property_key (t : EventType) : string :=
  match t with
  | t_undefined => "undefined"
  | t_null => "null"
  | t_name name => name
  end.

Section Manager.

(** The registry [require("./handlers/")] is not among the sources at
    hand: it is a parameter, a table from event type to handler, and
    the handlers are opaque. *)
Variable Handler : Type.
Variable PacketHandlers : string -> option Handler.

Variable client : Client.

(** A call [event(this.client, packet, shard)]. *)
Record Invocation : Type := {
  event : Handler;
  arg_client : Client;
  arg_packet : Packet;
  arg_shard : Shard.Shard
}.

(** [handlePacket (packet, shard)]; [None] is a [packet] that is
    [null] or [undefined].  The result is the returned boolean and the
    handler calls made. *)
Definition handlePacket (packet : option Packet) (shard : Shard.Shard)
  : bool * list Invocation :=
  match packet with
  | None => (false, [])
  | Some packet =>
      let calls :=
        if negb (includes (blockedEvents (options client)) (t packet)) then
          match PacketHandlers (property_key (t packet)) with
          | Some event =>
              [{| event := event; arg_client := client;
                  arg_packet := packet; arg_shard := shard |}]
          | None => []
          end
        else [] in
      (true, calls)
  end.

End Manager.

Arguments event {Handler}.
Arguments arg_client {Handler}.
Arguments arg_packet {Handler}.
Arguments arg_shard {Handler}.
Arguments handlePacket {Handler}.

Section Delivery.

Variable Handler : Type.
Variable PacketHandlers : string -> option Handler.
Variable client : Client.

(** The handler calls a shard method leads to.  [packetReceive] calls
    [this.manager.handlePacket(packet, this)] as its last step, so the
    shard the handler is given is the shard as the method leaves it. *)
Definition delivered (x : completion unit * Shard.Shard * list Shard.Effect)
  : list (Invocation Handler) :=
  flat_map
    (fun packet =>
       snd (handlePacket PacketHandlers client (Some packet)
              (Shard.state_after x)))
    (Shard.forwarded (Shard.effects_of x)).

End Delivery.

Arguments delivered {Handler}.

Section Startup.

Variable websocketURL : string.
Variable client : Client.

(** [this.queue], a [Set] in insertion order.  Its members are shard
    objects, each distinct from the others, and possibly [undefined]
    ([None]), which [connectShard] may add. *)
Definition Queue : Type := list (option Shard.Shard).

(** [this.queue.add(shard)]: a shard just deleted goes to the back;
    [undefined] is added only if the set does not hold it. *)
Definition Queue_add (shard : option Shard.Shard) (queue : Queue) : Queue :=
  match shard with
  | Some _ => (queue ++ [shard])%list
  | None =>
      if existsb (fun x => match x with None => true | Some _ => false end)
                 queue
      then queue else (queue ++ [shard])%list
  end.

(** What one call of [connectShard] leaves: the queue, the shard it called
    [connect] on (as [connect] leaves it), the effects of that [connect],
    and the delays of the timers set. *)
Record Attempt : Type := {
  queue : Queue;
  connected : option Shard.Shard;
  effects : list Shard.Effect;
  timers : list Z
}.

(** [if (this.queue.size) setTimeout(() => this.connectShard(), 5000)] *)
Definition next_attempt (queue : Queue) : list Z :=
  match queue with
  | [] => []
  | _ :: _ => [5000]
  end.

(** [connectShard ()]; [socket] is the object [new Websocket(...)] yields
    inside [connect].  [const [shard] = this.queue] reads the first member,
    [undefined] for an empty set, and [this.queue.delete(shard)] takes it
    out.  On [undefined], [shard.connect()] is a TypeError; the errors of
    the model carry no [code], so a caught error puts the shard back. *)
Definition connectShard (socket : Shard.Websocket) (queue : Queue) : Attempt :=
  let shard := hd None queue in
  let rest := tl queue in
  match shard with
  | None =>
      let queue' := Queue_add None rest in
      {| queue := queue'; connected := None; effects := [];
         timers := next_attempt queue' |}
  | Some this =>
      match Shard.connect websocketURL socket this with
      | (Return _, this', l) =>
          {| queue := rest; connected := Some this'; effects := l;
             timers := next_attempt rest |}
      | (Throw _, this', l) =>
          let queue' := Queue_add (Some this') rest in
          {| queue := queue'; connected := Some this'; effects := l;
             timers := next_attempt queue' |}
      end
  end.

(** The queue [createShardConnection] builds from [client.options.shards]. *)
Definition new_queue (shards : list Z) : Queue :=
  List.map (fun id => Some (Shard.new id)) shards.

(** [createShardConnection ()] *)
Definition createShardConnection (socket : Shard.Websocket) : Attempt :=
  connectShard socket (new_queue (shards (options client))).

(** The calls of [connectShard] as the timers fire, one socket of the list
    per call, until no timer is pending or the list is used up. *)
Fixpoint startup (sockets : list Shard.Websocket) (pending : Queue)
  : list Attempt :=
  match sockets with
  | [] => []
  | socket :: sockets' =>
      let attempt := connectShard socket pending in
      attempt ::
        match timers attempt with
        | [] => []
        | _ :: _ => startup sockets' (queue attempt)
        end
  end.

End Startup.

End GatewayManager.

(** ** Concrete values to run the model on *)

Module Sample.

Import Gateway.

(** The opcode numbers of the Discord gateway. *)
Definition OP_CODES : Gateway.OP_CODES :=
  {| EVENT := 0; HEARTBEAT := 1; IDENTIFY := 2; RESUME := 6;
     INVALID_SESSION := 9; HELLO := 10; HEARTBEAT_ACK := 11 |}.

Definition options : ClientOptions :=
  {| intents := 13827; shardCount := 1; shards := [0];
     ws := {| version := 9 |}; autoReconnect := true;
     blockedEvents := ["TYPING_START"] |}.

Definition client : Client :=
  {| token := "token"; Gateway.options := options |}.

Definition websocketURL : string :=
  "wss://gateway.discord.gg/?v=9&encoding=json".

Definition platform : string := "linux".

Definition socket : Shard.Websocket := {| Shard.terminate_throws := false |}.

(** A frame with nothing but an opcode. *)
Definition frame (op : Z) : Packet :=
  {| op := op; d := d_null; s := None; t := t_null |}.

(** A dispatch frame of a given event type. *)
Definition dispatch (name : string) : Packet :=
  {| op := 0; d := d_object None None; s := Some 1; t := t_name name |}.

(** A registry with a handler for two event types. *)
Definition PacketHandlers (key : string) : option string :=
  if String.eqb key "MESSAGE_CREATE" then Some "onMessageCreate"
  else if String.eqb key "TYPING_START" then Some "onTypingStart"
  else None.

(** The admission predicate of the sample configuration. *)
Definition toAdd (_ : Z) (userID : string) : bool :=
  if negb (existsb (String.eqb userID)
             ["664806442406248448"; "532294395655880705";
              "515903666360942594"; "478031386796752896";
              "817505090977923093"])
  then false else true.

(** The removal predicate of the sample configuration. *)
Definition toRemove (_ : Z) (userID : string) : bool :=
  if existsb (String.eqb userID) ["664806442406248448"; "515903666360942594"]
  then true else false.

Definition cache : Collection.CacheOptions Z :=
  {| Collection.sweep := Some 10; Collection.sweepTimeout := Some 10000;
     Collection.toAdd := Some toAdd; Collection.toRemove := Some toRemove |}.

Definition no_cache : Collection.CacheOptions Z :=
  {| Collection.sweep := None; Collection.sweepTimeout := None;
     Collection.toAdd := None; Collection.toRemove := None |}.

(** The calls of a shard under the sample client. *)
Definition run
  : list Shard.Call -> Shard.Shard -> Shard.Shard * list Shard.Effect :=
  Shard.run OP_CODES websocketURL client platform.

(** A shard that is connected and whose socket is open. *)
Definition open : Shard.Shard :=
  fst (run [Shard.call_connect socket; Shard.call_websocketConnectionOpen]
           (Shard.new 0)).

(** The same shard when its socket closes: [websocketCloseConnection] has
    just set the status. *)
Definition closing : Shard.Shard := Shard.set_status Shard.CLOSED open.

(** The HELLO frame, and the READY dispatch frame. *)
Definition hello : Packet :=
  {| op := 10; d := d_object None (Some 41250); s := None; t := t_null |}.

Definition ready : Packet :=
  {| op := 0; d := d_object (Some "session") None; s := Some 1;
     t := t_name "READY" |}.

(** The open shard once it has received READY. *)
Definition resumable : Shard.Shard :=
  fst (run [Shard.call_packetReceive 1 ready] open).

(** The open shard once it has received HELLO: its heartbeat timer runs. *)
Definition beating : Shard.Shard :=
  fst (run [Shard.call_packetReceive 1 hello] open).

(** A socket whose [terminate] throws, and a shard connected through it. *)
Definition stuck_socket : Shard.Websocket :=
  {| Shard.terminate_throws := true |}.

Definition stuck : Shard.Shard :=
  fst (run [Shard.call_connect stuck_socket; Shard.call_websocketConnectionOpen;
            Shard.call_packetReceive 1 hello] (Shard.new 1)).

(** A removal predicate, on the id and the item as [#sweep] passes them. *)
Definition stale (id : string) (item : Z) : bool := item <? 10.

(** Options with a quota of two removals for each sweep. *)
Definition quota_cache : Collection.CacheOptions Z :=
  {| Collection.sweep := Some 2; Collection.sweepTimeout := Some 10000;
     Collection.toAdd := None; Collection.toRemove := None |}.

Definition four_items : list (string * Z) :=
  [("a", 1); ("b", 20); ("c", 3); ("d", 4)].

(** Four users in a cache with the quota, and in one without. *)
Definition users : Collection.Collection Z :=
  Collection.add_all four_items
    (Collection.new quota_cache Collection.Infinity).

Definition users_no_quota : Collection.Collection Z :=
  Collection.add_all four_items (Collection.new no_cache Collection.Infinity).

End Sample.

(** * Properties *)

(** ** The bounded cache *)

Section CollectionFacts.

Import Collection.

Context {V : Type}.

Lemma Map_has_get (k : string) (m : Map V) :
  Map_has k m = false -> Map_get k m = None.
Proof.
  induction m as [|[k' v] m IH]; simpl; [reflexivity|].
  destruct (String.eqb k k'); simpl; [discriminate | exact IH].
Qed.

Lemma Map_has_true_get (k : string) (m : Map V) :
  Map_has k m = true -> exists v, Map_get k m = Some v.
Proof.
  induction m as [|[k' v] m IH]; simpl; [discriminate|].
  destruct (String.eqb k k'); simpl; [exists v; reflexivity | exact IH].
Qed.

Lemma Map_set_fresh (k : string) (v : V) (m : Map V) :
  Map_has k m = false -> Map_set k v m = (m ++ [(k, v)])%list.
Proof.
  induction m as [|[k' v'] m IH]; simpl; [reflexivity|].
  destruct (String.eqb k k'); simpl; [discriminate|].
  intros H. rewrite (IH H). reflexivity.
Qed.

Lemma Map_has_delete (k : string) (m : Map V) :
  Map_has k (Map_delete (StringKey k) m) = false.
Proof.
  induction m as [|[k' v] m IH]; simpl; [reflexivity|].
  destruct (String.eqb k k') eqn:E; simpl; [exact IH|].
  rewrite E. exact IH.
Qed.

(** Deleting with a fresh array as key deletes nothing. *)
Lemma Map_delete_array (a : list string) (m : Map V) :
  Map_delete (FreshArray a) m = m.
Proof. reflexivity. Qed.

(** A key that is not stored is appended by [add], whatever the size and
    the options, as soon as the limit is not 0. *)
Lemma add_fresh (k : string) (item : V) (c : Collection V) :
  is_zero (limit c) = false ->
  Map_has k (entries c) = false ->
  add (Some k) item c
  = (Return (Value item), with_entries (entries c ++ [(k, item)])%list c).
Proof.
  intros Hz Hk. unfold add. rewrite Hz, Hk.
  destruct (exceeded (size c) (limit c));
    rewrite ?Map_delete_array, (Map_set_fresh _ _ _ Hk); reflexivity.
Qed.

Lemma add_fresh_size (k : string) (item : V) (c : Collection V) :
  is_zero (limit c) = false ->
  Map_has k (entries c) = false ->
  size (snd (add (Some k) item c)) = size c + 1.
Proof.
  intros Hz Hk. rewrite (add_fresh _ _ _ Hz Hk). unfold size, Map_size. simpl.
  rewrite length_app. simpl. lia.
Qed.

Lemma Map_has_app (k : string) (m1 m2 : Map V) :
  Map_has k (m1 ++ m2)%list = (Map_has k m1 || Map_has k m2)%bool.
Proof. unfold Map_has. apply existsb_app. Qed.

(** [add] never takes a stored key out of the store. *)
Lemma add_keeps_entries (id : option string) (item : V) (c : Collection V)
  (k : string) :
  Map_has k (entries c) = true ->
  Map_has k (entries (snd (add id item c))) = true.
Proof.
  intros H. unfold add.
  destruct (is_zero (limit c)); [exact H|].
  destruct id as [k'|]; [|exact H].
  destruct (Map_has k' (entries c)) eqn:Hk'; [exact H|].
  destruct (exceeded (size c) (limit c));
    rewrite ?Map_delete_array, (Map_set_fresh _ _ _ Hk'); simpl;
    rewrite Map_has_app, H; reflexivity.
Qed.

(** Adding keys that are pairwise distinct and not stored appends them
    all, whatever the limit, as soon as it is not 0. *)
Lemma add_all_distinct (items : list (string * V)) (c : Collection V) :
  is_zero (limit c) = false ->
  NoDup (List.map fst items) ->
  (forall k, In k (List.map fst items) -> Map_has k (entries c) = false) ->
  add_all items c = with_entries (entries c ++ items)%list c.
Proof.
  revert c. induction items as [|[k item] items IH]; intros c Hz Hd Hc; simpl.
  - rewrite app_nil_r. destruct c; reflexivity.
  - inversion Hd as [|k0 ks Hk Hd']; subst.
    rewrite (add_fresh k item c Hz (Hc k (or_introl eq_refl))). simpl.
    rewrite IH; simpl.
    + rewrite <- app_assoc. reflexivity.
    + exact Hz.
    + exact Hd'.
    + intros k' Hk'. rewrite Map_has_app, (Hc k' (or_intror Hk')). simpl.
      destruct (String.eqb_spec k' k) as [->|]; [contradiction | reflexivity].
Qed.

End CollectionFacts.

Section CollectionClaims.

Import Collection.

(** C2.  The capacity bound does not hold.  For every finite limit other
    than 0, adding more keys than the limit, all distinct, to a new cache
    leaves every one of them stored: the size is the number of adds and
    exceeds the limit.  The overflow test of [add] looks at the size before
    the insertion, and the key it then deletes is a fresh array, which is
    never a key of the map. *)
Theorem C2_size_exceeds_finite_limit
  {V : Type} (options : CacheOptions V) (n : Z) (items : list (string * V)) :
  n <> 0 ->
  NoDup (List.map fst items) ->
  n < Z.of_nat (List.length items) ->
  limit (add_all items (new options (Finite n))) = Finite n /\
  size (add_all items (new options (Finite n)))
  = Z.of_nat (List.length items) /\
  n < size (add_all items (new options (Finite n))).
Proof.
  intros Hn Hd Hlt.
  assert (Hz : is_zero (limit (new options (Finite n))) = false)
    by (simpl; apply Z.eqb_neq; exact Hn).
  rewrite (add_all_distinct items (new options (Finite n)) Hz Hd)
    by (intros k _; reflexivity).
  unfold size. simpl. repeat split; assumption.
Qed.

Lemma C2_size_exceeds_finite_limit_witness :
  limit (add_all [("a", 1); ("b", 2)] (new Sample.no_cache (Finite 1)))
  = Finite 1 /\
  size (add_all [("a", 1); ("b", 2)] (new Sample.no_cache (Finite 1)))
  = Z.of_nat (List.length [("a", 1); ("b", 2)]) /\
  1 < size (add_all [("a", 1); ("b", 2)] (new Sample.no_cache (Finite 1))).
Proof.
  apply (C2_size_exceeds_finite_limit Sample.no_cache 1 [("a", 1); ("b", 2)]).
  - discriminate.
  - repeat constructor; simpl; intuition discriminate.
  - reflexivity.
Defined.

(** C4.  With limit 2, adding "a", "b" and "c" evicts nothing: the store
    ends up holding all three entries, "a" included.  A fourth add, made
    when the size is above the limit, reaches the eviction line and still
    evicts nothing. *)
Theorem C4_no_eviction_at_limit_2 :
  let c0 := new Sample.no_cache (Finite 2) in
  let c1 := snd (add (Some "a") 1 c0) in
  let c2 := snd (add (Some "b") 2 c1) in
  let c3 := snd (add (Some "c") 3 c2) in
  add (Some "c") 3 c2
  = (Return (Value 3), with_entries [("a", 1); ("b", 2); ("c", 3)] c0) /\
  exceeded (size c3) (limit c3) = true /\
  add (Some "d") 4 c3
  = (Return (Value 4),
     with_entries [("a", 1); ("b", 2); ("c", 3); ("d", 4)] c0).
Proof. repeat split. Qed.

(** C5, as stated, fails: the sample configuration's admission predicate
    rejects the key "x", and [add] stores the entry all the same. *)
Lemma C5_veto_counterexample :
  let c := new Sample.cache Infinity in
  toAdd (cache c) = Some Sample.toAdd /\
  Sample.toAdd 7 "x" = false /\
  add (Some "x") 7 c = (Return (Value 7), with_entries [("x", 7)] c) /\
  entries (snd (add (Some "x") 7 c)) <> entries c.
Proof. repeat split. simpl. discriminate. Qed.

(** C5, amended.  [add] does not consult the admission predicate: even
    when one is configured and returns false for the key, [add] on a
    cache whose limit is not 0 and which does not hold the key appends
    the entry to the store and returns the value. *)
Theorem C5_add_ignores_admission_predicate
  {V : Type} (c : Collection V) (p : V -> string -> bool)
  (k : string) (item : V) :
  toAdd (cache c) = Some p ->
  p item k = false ->
  is_zero (limit c) = false ->
  Map_has k (entries c) = false ->
  add (Some k) item c
  = (Return (Value item), with_entries (entries c ++ [(k, item)])%list c).
Proof. intros _ _ Hz Hk. exact (add_fresh k item c Hz Hk). Qed.

Lemma C5_add_ignores_admission_predicate_witness :
  add (Some "x") 7 (new Sample.cache Infinity)
  = (Return (Value 7),
     with_entries ([] ++ [("x", 7)])%list (new Sample.cache Infinity)).
Proof.
  apply (C5_add_ignores_admission_predicate
           (new Sample.cache Infinity) Sample.toAdd "x" 7);
    reflexivity.
Defined.

(** C6.  [remove] of a key that is stored deletes the entry, and then
    returns what [get] finds under the key afterwards, which is
    [undefined], not the removed value.  [remove] of a key that is not
    stored returns [null] and changes nothing. *)
Theorem C6_remove_present_returns_undefined
  {V : Type} (c : Collection V) (k : string) :
  Map_has k (entries c) = true ->
  (exists v, get_value k (entries c) = Value v) /\
  fst (remove (Some k) c) = Undefined /\
  Map_has k (entries (snd (remove (Some k) c))) = false.
Proof.
  intros H. split; [|split].
  - destruct (Map_has_true_get k (entries c) H) as [v Hv].
    exists v. unfold get_value. rewrite Hv. reflexivity.
  - unfold remove. rewrite H. cbn [negb fst]. unfold get_value.
    rewrite (Map_has_get _ _ (Map_has_delete k (entries c))). reflexivity.
  - unfold remove. rewrite H. cbn [negb snd with_entries entries].
    apply Map_has_delete.
Qed.

Lemma C6_remove_present_returns_undefined_witness :
  (exists v, get_value "a" [("a", 1); ("b", 2)] = Value v) /\
  fst (remove (Some "a")
         (with_entries [("a", 1); ("b", 2)] (new Sample.no_cache (Finite 2))))
  = Undefined /\
  Map_has "a"
    (entries (snd (remove (Some "a")
       (with_entries [("a", 1); ("b", 2)] (new Sample.no_cache (Finite 2))))))
  = false.
Proof.
  apply (C6_remove_present_returns_undefined
           (with_entries [("a", 1); ("b", 2)] (new Sample.no_cache (Finite 2)))
           "a").
  reflexivity.
Defined.

(** [remove] of a key that is not stored: [null], nothing changed. *)
Lemma remove_absent {V : Type} (c : Collection V) (k : string) :
  Map_has k (entries c) = false -> remove (Some k) c = (Null, c).
Proof. intros H. unfold remove. rewrite H. reflexivity. Qed.

(** C7.  [filter] throws on every cache and every predicate: it iterates
    the [values] method itself, not the iterator the method returns. *)
Theorem C7_filter_always_throws
  {V : Type} (func : V -> bool) (c : Collection V) :
  filter func c = (Throw (TypeError "this.values is not iterable"), c).
Proof. reflexivity. Qed.

Lemma fold_left_push {A B : Type} (f : A -> B) (l : list A) (acc : list B) :
  fold_left (fun array item => (array ++ [f item])%list) l acc
  = (acc ++ List.map f l)%list.
Proof.
  revert acc. induction l as [|x l IH]; intros acc; simpl.
  - rewrite app_nil_r. reflexivity.
  - rewrite IH, <- app_assoc. reflexivity.
Qed.

(** [map], which calls [this.values()], returns the images of the stored
    values in insertion order and changes nothing. *)
Lemma map_total {V B : Type} (func : V -> B) (c : Collection V) :
  map func c = (Return (List.map func (Map_values (entries c))), c).
Proof.
  unfold map, values_call, for_of. rewrite fold_left_push. reflexivity.
Qed.

End CollectionClaims.

(** ** The manager's dispatch *)

Section GatewayManagerClaims.

Import Gateway GatewayManager.

Context {Handler : Type}.
Variable PacketHandlers : string -> option Handler.
Variable client : Client.

(** C9.  [handlePacket] returns false for an absent frame and calls no
    handler.  For a frame that is there it returns true, and: when the
    event type is blocked no handler is called, even if one is
    registered; when it is not blocked and a handler is registered, that
    handler is called once, with the client, the frame and the shard;
    when it is not blocked and none is registered, none is called. *)
Theorem C9_handlePacket_dispatch (shard : Shard.Shard) :
  handlePacket PacketHandlers client None shard = (false, []) /\
  forall packet : Packet,
    fst (handlePacket PacketHandlers client (Some packet) shard) = true /\
    (includes (blockedEvents (options client)) (t packet) = true ->
     snd (handlePacket PacketHandlers client (Some packet) shard) = []) /\
    (includes (blockedEvents (options client)) (t packet) = false ->
     forall event,
       PacketHandlers (property_key (t packet)) = Some event ->
       snd (handlePacket PacketHandlers client (Some packet) shard)
       = [{| event := event; arg_client := client;
             arg_packet := packet; arg_shard := shard |}]) /\
    (includes (blockedEvents (options client)) (t packet) = false ->
     PacketHandlers (property_key (t packet)) = None ->
     snd (handlePacket PacketHandlers client (Some packet) shard) = []).
Proof.
  split; [reflexivity|].
  intros packet. unfold handlePacket. cbn [fst snd].
  split; [reflexivity|].
  split; [|split].
  - intros H. rewrite H. reflexivity.
  - intros H event' He. rewrite H, He. reflexivity.
  - intros H He. rewrite H, He. reflexivity.
Qed.

End GatewayManagerClaims.

Lemma C9_handlePacket_dispatch_witness :
  let handle :=
    GatewayManager.handlePacket Sample.PacketHandlers Sample.client in
  let shard := Shard.new 0 in
  handle None shard = (false, []) /\
  fst (handle (Some (Sample.dispatch "TYPING_START")) shard) = true /\
  snd (handle (Some (Sample.dispatch "TYPING_START")) shard) = [] /\
  snd (handle (Some (Sample.dispatch "MESSAGE_CREATE")) shard)
  = [{| GatewayManager.event := "onMessageCreate";
        GatewayManager.arg_client := Sample.client;
        GatewayManager.arg_packet := Sample.dispatch "MESSAGE_CREATE";
        GatewayManager.arg_shard := shard |}] /\
  snd (handle (Some (Sample.dispatch "GUILD_CREATE")) shard) = [].
Proof.
  intros handle shard.
  destruct (C9_handlePacket_dispatch Sample.PacketHandlers Sample.client shard)
    as [Habsent Hframe].
  split; [exact Habsent|].
  split; [exact (proj1 (Hframe (Sample.dispatch "TYPING_START")))|].
  split.
  - apply (proj1 (proj2 (Hframe (Sample.dispatch "TYPING_START")))).
    reflexivity.
  - split.
    + apply (proj1 (proj2 (proj2 (Hframe (Sample.dispatch "MESSAGE_CREATE")))));
        reflexivity.
    + apply (proj2 (proj2 (proj2 (Hframe (Sample.dispatch "GUILD_CREATE")))));
        reflexivity.
Defined.

(** ** The shard *)

Section ShardFacts.

Import Gateway Shard.

Variable OP_CODES : Gateway.OP_CODES.
Variable websocketURL : string.
Variable client : Client.
Variable platform : string.

Lemma scheduled_reconnects_app (l1 l2 : list Effect) :
  scheduled_reconnects (l1 ++ l2)
  = (scheduled_reconnects l1 ++ scheduled_reconnects l2)%list.
Proof.
  induction l1 as [|e l1 IH]; simpl; [reflexivity|].
  destruct e; simpl; rewrite ?IH; reflexivity.
Qed.

Lemma opened_app (l1 l2 : list Effect) :
  opened (l1 ++ l2) = (opened l1 ++ opened l2)%list.
Proof.
  induction l1 as [|e l1 IH]; simpl; [reflexivity|].
  destruct e; simpl; rewrite ?IH; reflexivity.
Qed.

Lemma unchanged_refl (this : Shard) : unchanged this this.
Proof. repeat split; auto. Qed.

Lemma unchanged_trans (a b c : Shard) :
  unchanged a b -> unchanged b c -> unchanged a c.
Proof.
  intros (H1 & H2 & H3 & H4) (K1 & K2 & K3 & K4).
  repeat split; try congruence. auto.
Qed.

Lemma quiet_ret {A : Type} (a : A) : quiet (ret a).
Proof.
  intros this r this' l H. inversion H; subst.
  split; [apply unchanged_refl | split; reflexivity].
Qed.

Lemma quiet_get : quiet get.
Proof.
  intros this r this' l H. inversion H; subst.
  split; [apply unchanged_refl | split; reflexivity].
Qed.

Lemma quiet_throw {A : Type} (e : error) : quiet (@throw A e).
Proof.
  intros this r this' l H. inversion H; subst.
  split; [apply unchanged_refl | split; reflexivity].
Qed.

Lemma quiet_modify (f : Shard -> Shard) :
  (forall this, unchanged this (f this)) -> quiet (modify f).
Proof.
  intros Hf this r this' l H. inversion H; subst.
  split; [apply Hf | split; reflexivity].
Qed.

Lemma quiet_perform (e : Effect) :
  scheduled_reconnects [e] = [] -> opened [e] = [] -> quiet (perform e).
Proof.
  intros H1 H2 this r this' l H. inversion H; subst.
  split; [apply unchanged_refl | split; assumption].
Qed.

Lemma quiet_bind {A B : Type} (m : M A) (f : A -> M B) :
  quiet m -> (forall a, quiet (f a)) -> quiet (bind m f).
Proof.
  intros Hm Hf this r this' l H. unfold bind in H.
  destruct (m this) as [[[a|e] this1] l1] eqn:Em.
  - destruct (f a this1) as [[r2 this2] l2] eqn:Ef.
    inversion H; subst.
    destruct (Hm _ _ _ _ Em) as (U1 & S1 & O1).
    destruct (Hf a _ _ _ _ Ef) as (U2 & S2 & O2).
    split; [exact (unchanged_trans _ _ _ U1 U2)|].
    rewrite scheduled_reconnects_app, opened_app, S1, S2, O1, O2.
    split; reflexivity.
  - inversion H; subst. exact (Hm _ _ _ _ Em).
Qed.

Lemma quiet_when (b : bool) (m : M unit) : quiet m -> quiet (when b m).
Proof. intros H. destruct b; [exact H | apply quiet_ret]. Qed.

Create HintDb quiet.
Hint Resolve quiet_ret quiet_get quiet_throw quiet_when : quiet.

Ltac quiet_step :=
  match goal with
  | |- quiet (bind _ _) => apply quiet_bind; [|intros ?]
  | |- quiet (when _ _) => apply quiet_when
  | |- quiet (modify _) =>
      apply quiet_modify; intros ?; repeat split; simpl; auto; discriminate
  | |- quiet (perform _) => apply quiet_perform; reflexivity
  | |- quiet (if ?b then _ else _) => destruct b
  | |- quiet (match ?x with _ => _ end) => destruct x
  | |- quiet _ => solve [auto with quiet]
  end.

Lemma quiet_sendWebsocketMessage (data : Message) :
  quiet (sendWebsocketMessage data).
Proof. unfold sendWebsocketMessage. repeat quiet_step. Qed.

Hint Resolve quiet_sendWebsocketMessage : quiet.

Lemma quiet_identify : quiet (identify OP_CODES client platform).
Proof. unfold identify. repeat quiet_step. Qed.

Lemma quiet_sendHeartbeat : quiet (sendHeartbeat OP_CODES).
Proof. unfold sendHeartbeat. repeat quiet_step. Qed.

Hint Resolve quiet_identify quiet_sendHeartbeat : quiet.

Lemma quiet_websocketError : quiet websocketError.
Proof. unfold websocketError. repeat quiet_step. Qed.

Lemma quiet_websocketConnectionOpen : quiet websocketConnectionOpen.
Proof. unfold websocketConnectionOpen. repeat quiet_step. Qed.

Lemma quiet_packetReceive_t (packet : Packet) :
  quiet (packetReceive_t OP_CODES packet).
Proof. unfold packetReceive_t. repeat quiet_step. Qed.

Lemma quiet_packetReceive_op (now : Z) (packet : Packet) :
  quiet (packetReceive_op OP_CODES client platform now packet).
Proof. unfold packetReceive_op. repeat quiet_step. Qed.

Hint Resolve quiet_packetReceive_t quiet_packetReceive_op : quiet.

Lemma quiet_packetReceive (now : Z) (packet : Packet) :
  quiet (packetReceive OP_CODES client platform now packet).
Proof. unfold packetReceive. repeat quiet_step. Qed.

End ShardFacts.

Section ShardRuns.

Import Gateway Shard.

Variable OP_CODES : Gateway.OP_CODES.
Variable websocketURL : string.
Variable client : Client.
Variable platform : string.

(** What one call may do to the backoff state: nothing, or the first and
    only scheduling of a reconnect, 3000 ms ahead. *)
Let backoff_step (this this' : Shard) (l : list Effect) : Prop :=
  backoff_invariant this' /\
  (scheduled_reconnects l = [] /\
   reconnectAttempts this' = reconnectAttempts this \/
   reconnectAttempts this = 0 /\ scheduled_reconnects l = [3000] /\
   reconnectAttempts this' = 1).

Lemma quiet_backoff_step {A : Type} (m : M A) (this : Shard) r this' l :
  quiet m -> backoff_invariant this -> m this = (r, this', l) ->
  backoff_step this this' l.
Proof.
  intros Hq [Hc Hb] Hm.
  destruct (Hq _ _ _ _ Hm) as ((U1 & U2 & U3 & U4) & S & _).
  split.
  - split.
    + rewrite U3. intros H. apply U4, Hc, H.
    + rewrite U1, U2, U3.
      destruct Hb as [Hb | (B1 & B2 & B3 & B4)]; [left; exact Hb|].
      right. repeat split; auto.
  - left. split; [exact S | exact U2].
Qed.

Lemma connect_backoff_step (socket : Websocket) (this : Shard) r this' l :
  backoff_invariant this ->
  connect websocketURL socket this = (r, this', l) ->
  backoff_step this this' l.
Proof.
  intros [Hc Hb] H. unfold connect, bind, get, ret, perform, modify in H.
  destruct this as [i sq sid acked ack rcv hb ri ra st cn]. simpl in *.
  destruct st; simpl in H; inversion H; subst; clear H;
    (split; [split; simpl; [try (intros _; discriminate); exact Hc|]
            | left; split; reflexivity]).
  all: simpl.
  all: destruct Hb as [Hb | (B1 & B2 & B3 & B4)];
    [left; exact Hb | try (exfalso; apply B4; reflexivity)].
  all: right; repeat split; auto.
Qed.

Lemma disconnect_backoff_step (reconnect : bool) (this : Shard) r this' l :
  backoff_invariant this ->
  disconnect client reconnect this = (r, this', l) ->
  backoff_step this this' l.
Proof.
  intros [Hc Hb] H.
  destruct this as [i sq sid acked ack rcv hb ri ra st cn].
  unfold disconnect, bind, get, ret, perform, modify, when in H. simpl in *.
  destruct cn as [socket|].
  2:{ inversion H; subst. split; [split; [exact Hc | exact Hb]|].
      left. split; reflexivity. }
  assert (Hst : st <> IDLE) by (apply Hc; discriminate).
  destruct Hb as [[B1 B2] | (_ & _ & B3 & _)]; [subst ra ri | discriminate].
  destruct hb; simpl in H;
    destruct (terminate_throws socket); simpl in H;
    try (inversion H; subst; clear H;
         split; [split; [intros _; exact Hst | left; split; reflexivity]
                | left; split; reflexivity]).
  all: destruct (truthy_string sid); simpl in H;
    destruct (sq =? 0); simpl in H;
    destruct (reconnect && autoReconnect (options client))%bool; simpl in H;
    inversion H; subst; clear H; simpl.
  all: split;
    [ split; simpl; [intros F; exfalso; apply F; reflexivity|];
      first [ left; split; reflexivity | right; repeat split; auto ]
    | first [ left; split; reflexivity | right; repeat split; reflexivity ] ].
Qed.

Lemma websocketCloseConnection_backoff_step
  (code : Z) (reason : string) (this : Shard) r this' l :
  backoff_invariant this ->
  websocketCloseConnection client code reason this = (r, this', l) ->
  backoff_step this this' l.
Proof.
  intros [Hc Hb] H. unfold websocketCloseConnection in H.
  unfold bind at 1 in H. unfold modify at 1 in H.
  unfold bind at 1 in H. unfold get at 1 in H.
  unfold bind at 1 in H. unfold perform at 1 in H.
  destruct (disconnect client true (set_status CLOSED this))
    as [[r2 this2] l2] eqn:E.
  assert (Hinv : backoff_invariant (set_status CLOSED this)).
  { split; simpl; [intros _; discriminate|].
    destruct Hb as [Hb | (B1 & B2 & B3 & B4)]; [left; exact Hb|].
    right. repeat split; auto. discriminate. }
  destruct (disconnect_backoff_step _ _ _ _ _ Hinv E) as [I S].
  inversion H; subst; clear H.
  split; [exact I|]. simpl. exact S.
Qed.

Lemma call_backoff_step (c : Call) (this : Shard) r this' l :
  backoff_invariant this ->
  call OP_CODES websocketURL client platform c this = (r, this', l) ->
  backoff_step this this' l.
Proof.
  intros Hinv H. destruct c; simpl in H.
  - exact (connect_backoff_step _ _ _ _ _ Hinv H).
  - exact (websocketCloseConnection_backoff_step _ _ _ _ _ _ Hinv H).
  - exact (quiet_backoff_step _ _ _ _ _ quiet_websocketError Hinv H).
  - exact (quiet_backoff_step _ _ _ _ _
             (quiet_packetReceive OP_CODES client platform now packet) Hinv H).
  - exact (quiet_backoff_step _ _ _ _ _ quiet_websocketConnectionOpen Hinv H).
  - exact (quiet_backoff_step _ _ _ _ _
             (quiet_packetReceive OP_CODES client platform now packet) Hinv H).
  - exact (quiet_backoff_step _ _ _ _ _
             (quiet_identify OP_CODES client platform) Hinv H).
  - exact (quiet_backoff_step _ _ _ _ _ (quiet_sendHeartbeat OP_CODES) Hinv H).
  - exact (quiet_backoff_step _ _ _ _ _
             (quiet_sendWebsocketMessage data) Hinv H).
  - exact (disconnect_backoff_step _ _ _ _ _ Hinv H).
Qed.

Lemma run_backoff_step (calls : list Call) (this : Shard) this' l :
  backoff_invariant this ->
  run OP_CODES websocketURL client platform calls this = (this', l) ->
  backoff_step this this' l.
Proof.
  revert this this' l.
  induction calls as [|c calls IH]; intros this this' l Hinv H; simpl in H.
  - inversion H; subst. split; [exact Hinv|]. left. split; reflexivity.
  - destruct (call OP_CODES websocketURL client platform c this)
      as [[r1 this1] l1] eqn:E1.
    destruct (run OP_CODES websocketURL client platform calls this1)
      as [this2 l2] eqn:E2.
    inversion H; subst; clear H.
    destruct (call_backoff_step _ _ _ _ _ Hinv E1) as [I1 S1].
    destruct (IH _ _ _ I1 E2) as [I2 S2].
    split; [exact I2|].
    rewrite scheduled_reconnects_app.
    destruct S1 as [[S1 A1] | (A0 & S1 & A1)];
      destruct S2 as [[S2 A2] | (B0 & S2 & A2)]; rewrite S1, S2; simpl.
    + left. split; [reflexivity | congruence].
    + right. repeat split; congruence.
    + right. repeat split; congruence.
    + exfalso. rewrite A1 in B0. discriminate.
Qed.

Lemma new_backoff_invariant (id : Z) : backoff_invariant (new id).
Proof.
  split; simpl; [intros F; exfalso; apply F; reflexivity|].
  left. split; reflexivity.
Qed.

End ShardRuns.

Section ShardClaims.

Import Gateway Shard.

Variable OP_CODES : Gateway.OP_CODES.
Variable websocketURL : string.
Variable client : Client.
Variable platform : string.

Ltac run_method :=
  unfold packetReceive, packetReceive_t, packetReceive_op, sendHeartbeat,
    identify, sendWebsocketMessage, disconnect, connect,
    completion_of, state_after, effects_of,
    bind, get, modify, perform, ret, when, throw.

(** [connect] does nothing on a shard that is not idle. *)
Lemma connect_not_idle (socket : Websocket) (this : Shard) :
  status this <> IDLE ->
  connect websocketURL socket this = (Return tt, this, []).
Proof.
  intros H. run_method. destruct (status this); try reflexivity.
  exfalso. apply H. reflexivity.
Qed.

(** The backoff branch of [disconnect], taken with a socket at hand: the
    reconnect is set [reconnectInterval] ahead, the interval grows by 3000
    and the attempts by one; the status is left as it is. *)
Lemma disconnect_schedules (this : Shard) (socket : Websocket) :
  connection this = Some socket ->
  terminate_throws socket = false ->
  autoReconnect (options client) = true ->
  reconnectAttempts this < 5 ->
  completion_of (disconnect client true this) = Return tt /\
  scheduled_reconnects (effects_of (disconnect client true this))
  = [reconnectInterval this] /\
  reconnectInterval (state_after (disconnect client true this))
  = reconnectInterval this + 3000 /\
  reconnectAttempts (state_after (disconnect client true this))
  = reconnectAttempts this + 1 /\
  status (state_after (disconnect client true this)) = status this /\
  connection (state_after (disconnect client true this)) = None.
Proof.
  intros Hc Ht Ha Hr.
  destruct this as [i sq sid acked ack rcv hb ri ra st cn]. simpl in *.
  subst cn. run_method. simpl. rewrite Ht, Ha.
  assert (E : (5 <=? ra) = false) by (apply Z.leb_gt; exact Hr).
  destruct hb; simpl; destruct (truthy_string sid); simpl;
    destruct (sq =? 0); simpl; rewrite E; simpl; repeat split.
Qed.

(** The same branch once five attempts were made: the terminal
    notification, and no reconnect. *)
Lemma disconnect_gives_up (this : Shard) (socket : Websocket) :
  connection this = Some socket ->
  terminate_throws socket = false ->
  autoReconnect (options client) = true ->
  5 <= reconnectAttempts this ->
  In (Emit_disconnect "ATTEMPTS_ULTRAPASSED")
     (effects_of (disconnect client true this)) /\
  scheduled_reconnects (effects_of (disconnect client true this)) = [] /\
  reconnectAttempts (state_after (disconnect client true this))
  = reconnectAttempts this.
Proof.
  intros Hc Ht Ha Hr.
  destruct this as [i sq sid acked ack rcv hb ri ra st cn]. simpl in *.
  subst cn. run_method. simpl. rewrite Ht, Ha.
  assert (E : (5 <=? ra) = true) by (apply Z.leb_le; exact Hr).
  destruct hb; simpl; destruct (truthy_string sid); simpl;
    destruct (sq =? 0); simpl; rewrite E; simpl; repeat split; auto 10.
Qed.

(** C1.  On a closed shard whose [disconnect(true)] passes the backoff
    policy, a reconnect is scheduled after the backoff delay, but the
    [connect] it runs returns at once, because the shard is not idle: the
    shard stays closed, without a socket, and no socket is opened. *)
Theorem C1_scheduled_connect_does_nothing
  (this : Shard) (socket socket' : Websocket) :
  status this = CLOSED ->
  connection this = Some socket ->
  terminate_throws socket = false ->
  autoReconnect (options client) = true ->
  reconnectAttempts this < 5 ->
  let closed := disconnect client true this in
  let timer := connect websocketURL socket' (state_after closed) in
  scheduled_reconnects (effects_of closed) = [reconnectInterval this] /\
  timer = (Return tt, state_after closed, []) /\
  status (state_after timer) = CLOSED /\
  connection (state_after timer) = None /\
  opened (effects_of timer) = [].
Proof.
  intros Hs Hc Ht Ha Hr closed timer.
  destruct (disconnect_schedules this socket Hc Ht Ha Hr)
    as (_ & S & _ & _ & St & Cn).
  fold closed in S, St, Cn.
  assert (E : timer = (Return tt, state_after closed, [])).
  { apply connect_not_idle. rewrite St, Hs. discriminate. }
  replace (state_after timer) with (state_after closed)
    by (rewrite E; reflexivity).
  replace (effects_of timer) with (@nil Effect) by (rewrite E; reflexivity).
  rewrite St, Hs, Cn. repeat split; [exact S | exact E].
Qed.

(** C3.  A heartbeat tick on a shard with an open socket clears
    [lastHeartbeatAcked] and sends a heartbeat frame with the sequence.
    The acknowledgement that follows records the receipt time, but writes
    true into [lastHeartbeatAck], another property: [lastHeartbeatAcked]
    stays false. *)
Theorem C3_heartbeat_ack_leaves_flag_false
  (this : Shard) (socket : Websocket) (now : Z) (packet : Packet) :
  connection this = Some socket ->
  status this <> CLOSED ->
  op packet = HEARTBEAT_ACK OP_CODES ->
  HEARTBEAT_ACK OP_CODES <> EVENT OP_CODES ->
  HEARTBEAT_ACK OP_CODES <> HEARTBEAT OP_CODES ->
  t packet <> t_name "READY" ->
  let tick := sendHeartbeat OP_CODES this in
  let ack :=
    packetReceive OP_CODES client platform now packet (state_after tick) in
  completion_of tick = Return tt /\
  lastHeartbeatAcked (state_after tick) = false /\
  effects_of tick
  = [WsSend {| m_op := HEARTBEAT OP_CODES;
               m_d := HeartbeatData (sequence this) |}] /\
  completion_of ack = Return tt /\
  lastHeartbeatAcked (state_after ack) = false /\
  lastHeartbeatAck (state_after ack) = Some true /\
  lastHeartbeatReceived (state_after ack) = Some now.
Proof.
  intros Hc Hs Hop He Hh Ht tick ack. subst tick ack.
  destruct this as [i sq sid acked ack rcv hb ri ra st cn].
  destruct packet as [o d0 s0 t0]. simpl in *. subst cn o.
  apply Z.eqb_neq in He, Hh.
  assert (Hst : Status_eqb st CLOSED = false)
    by (destruct st; try reflexivity; exfalso; apply Hs; reflexivity).
  assert (Ht' : match t0 with
                | t_name name => String.eqb name "READY" = false
                | _ => True
                end).
  { destruct t0 as [| |name]; auto.
    destruct (String.eqb_spec name "READY"); auto.
    subst. exfalso. apply Ht. reflexivity. }
  run_method. simpl. rewrite Hst. simpl.
  repeat (split; [reflexivity|]).
  destruct s0 as [n|]; [destruct (n =? 0)|]; simpl;
    (destruct t0 as [| |name]; [| |rewrite Ht']); simpl;
    rewrite He, Hh, Z.eqb_refl; simpl; repeat split.
Qed.

(** C8.  Whatever calls a new shard receives, in whatever order, at most
    one reconnect is ever scheduled, 3000 ms ahead, and
    [reconnectAttempts] never exceeds 1: once [disconnect] has dropped the
    socket no [connect] brings one back, so the backoff branch is not
    reached a second time.  Neither a second and third reconnect at 6000
    and 9000 ms, nor three attempts, nor the terminal notification at five
    attempts can be observed. *)
Theorem C8_at_most_one_reconnect_scheduled (id : Z) (calls : list Call) :
  let result := run OP_CODES websocketURL client platform calls (new id) in
  reconnectAttempts (fst result) <= 1 /\
  (scheduled_reconnects (snd result) = [] /\
   reconnectAttempts (fst result) = 0 \/
   scheduled_reconnects (snd result) = [3000] /\
   reconnectAttempts (fst result) = 1).
Proof.
  intros result.
  destruct result as [this' l] eqn:E. subst result. simpl.
  destruct (run_backoff_step OP_CODES websocketURL client platform
              calls (new id) this' l (new_backoff_invariant id) E)
    as [_ [[S A] | (_ & S & A)]]; simpl in A; rewrite A, S.
  - split; [lia | left; split; reflexivity].
  - split; [lia | right; split; reflexivity].
Qed.

(** C10.  The constructor sets the sequence to -1.  After a frame whose
    opcode is INVALID_SESSION (and whose event type is not READY) it is 0,
    and a [disconnect] that follows leaves it at 0.  On any shard [that],
    [disconnect] either leaves the sequence as it is or turns a sequence
    other than 0 into -1; and it does turn it into -1 whenever the
    sequence is not 0 and the socket is dropped (there is a socket and its
    [terminate] does not throw). *)
Theorem C10_invalid_session_sequence_stays_zero
  (id : Z) (this that : Shard) (socket : Websocket) (now : Z)
  (packet : Packet) (reconnect : bool) :
  op packet = INVALID_SESSION OP_CODES ->
  INVALID_SESSION OP_CODES <> EVENT OP_CODES ->
  INVALID_SESSION OP_CODES <> HEARTBEAT OP_CODES ->
  INVALID_SESSION OP_CODES <> HEARTBEAT_ACK OP_CODES ->
  INVALID_SESSION OP_CODES <> HELLO OP_CODES ->
  t packet <> t_name "READY" ->
  let received :=
    state_after (packetReceive OP_CODES client platform now packet this) in
  sequence (new id) = -1 /\
  sequence received = 0 /\
  sequence (state_after (disconnect client reconnect received)) = 0 /\
  (sequence (state_after (disconnect client reconnect that)) = sequence that \/
   sequence that <> 0 /\
   sequence (state_after (disconnect client reconnect that)) = -1) /\
  (connection that = Some socket ->
   terminate_throws socket = false ->
   sequence that <> 0 ->
   sequence (state_after (disconnect client reconnect that)) = -1).
Proof.
  intros Hop He Hh Ha Hl Ht received. revert that.
  assert (Hreset : forall that : Shard,
    connection that = Some socket ->
    terminate_throws socket = false ->
    sequence that <> 0 ->
    sequence (state_after (disconnect client reconnect that)) = -1).
  { intros that Hc Hterm Hsq.
    destruct that as [i sq sid acked ack rcv hb ri ra st cn].
    simpl in Hc, Hsq. subst cn. apply Z.eqb_neq in Hsq.
    run_method. simpl. rewrite Hterm.
    destruct hb; simpl; destruct (truthy_string sid); simpl;
      rewrite Hsq; simpl;
      destruct (reconnect && autoReconnect (options client))%bool; simpl;
      try destruct (5 <=? ra); reflexivity. }
  assert (Hd : forall that : Shard,
    sequence (state_after (disconnect client reconnect that)) = sequence that \/
    sequence that <> 0 /\
    sequence (state_after (disconnect client reconnect that)) = -1).
  { intros that.
    destruct that as [i sq sid acked ack rcv hb ri ra st cn].
    run_method. simpl.
    destruct cn as [held|]; simpl; [|left; reflexivity].
    destruct hb; simpl; destruct (terminate_throws held); simpl;
      try (left; reflexivity);
      destruct (truthy_string sid); simpl;
      destruct (Z.eqb_spec sq 0); simpl;
      destruct (reconnect && autoReconnect (options client))%bool; simpl;
      try destruct (5 <=? ra); simpl;
      solve [left; reflexivity | right; split; [assumption | reflexivity]]. }
  assert (Hr : sequence received = 0).
  { subst received.
    destruct this as [i sq sid acked ack rcv hb ri ra st cn].
    destruct packet as [o d0 s0 t0]. simpl in *. subst o.
    apply Z.eqb_neq in He, Hh, Ha, Hl.
    assert (Ht' : match t0 with
                  | t_name name => String.eqb name "READY" = false
                  | _ => True
                  end).
    { destruct t0 as [| |name]; auto.
      destruct (String.eqb_spec name "READY"); auto.
      subst. exfalso. apply Ht. reflexivity. }
    run_method. simpl.
    destruct s0 as [n|]; [destruct (n =? 0)|]; simpl;
      (destruct t0 as [| |name]; [| |rewrite Ht']); simpl;
      rewrite He, Hh, Ha, Hl, Z.eqb_refl; simpl;
      destruct (truthy d0); simpl;
      destruct (Status_eqb st CLOSED); simpl;
      destruct cn; reflexivity. }
  intros that.
  split; [reflexivity|]. split; [exact Hr|].
  split; [|split; [exact (Hd that) | exact (Hreset that)]].
  destruct (Hd received) as [H | [H _]]; [rewrite H; exact Hr|].
  exfalso. apply H. exact Hr.
Qed.

End ShardClaims.

(** ** The claims at concrete shards *)

Section ShardExamples.

Import Gateway Shard.

Lemma C1_scheduled_connect_does_nothing_witness :
  let closed := disconnect Sample.client true Sample.closing in
  let timer := connect Sample.websocketURL Sample.socket (state_after closed) in
  scheduled_reconnects (effects_of closed)
  = [reconnectInterval Sample.closing] /\
  timer = (Return tt, state_after closed, []) /\
  status (state_after timer) = CLOSED /\
  connection (state_after timer) = None /\
  opened (effects_of timer) = [].
Proof.
  apply (C1_scheduled_connect_does_nothing Sample.websocketURL Sample.client
           Sample.closing Sample.socket Sample.socket); reflexivity.
Defined.

Lemma C3_heartbeat_ack_leaves_flag_false_witness :
  let tick := sendHeartbeat Sample.OP_CODES Sample.open in
  let ack :=
    packetReceive Sample.OP_CODES Sample.client Sample.platform 1700000000000
      (Sample.frame 11) (state_after tick) in
  completion_of tick = Return tt /\
  lastHeartbeatAcked (state_after tick) = false /\
  effects_of tick
  = [WsSend {| m_op := HEARTBEAT Sample.OP_CODES;
               m_d := HeartbeatData (sequence Sample.open) |}] /\
  completion_of ack = Return tt /\
  lastHeartbeatAcked (state_after ack) = false /\
  lastHeartbeatAck (state_after ack) = Some true /\
  lastHeartbeatReceived (state_after ack) = Some 1700000000000.
Proof.
  apply (C3_heartbeat_ack_leaves_flag_false Sample.OP_CODES Sample.client
           Sample.platform Sample.open Sample.socket 1700000000000
           (Sample.frame 11));
    try reflexivity; discriminate.
Defined.

Lemma C10_invalid_session_sequence_stays_zero_witness :
  let received :=
    state_after
      (packetReceive Sample.OP_CODES Sample.client Sample.platform 1700000000000
         (Sample.frame 9) Sample.open) in
  sequence (new 0) = -1 /\
  sequence received = 0 /\
  sequence (state_after (disconnect Sample.client true received)) = 0 /\
  (sequence (state_after (disconnect Sample.client true Sample.resumable))
   = sequence Sample.resumable \/
   sequence Sample.resumable <> 0 /\
   sequence (state_after (disconnect Sample.client true Sample.resumable))
   = -1) /\
  sequence Sample.resumable = 1 /\
  sequence (state_after (disconnect Sample.client true Sample.resumable)) = -1.
Proof.
  intros received.
  destruct (C10_invalid_session_sequence_stays_zero Sample.OP_CODES
              Sample.client Sample.platform 0 Sample.open Sample.resumable
              Sample.socket 1700000000000 (Sample.frame 9) true)
    as (H1 & H2 & H3 & H4 & H5); try reflexivity; try discriminate.
  repeat (split; [assumption|]).
  split; [reflexivity|].
  apply H5; [reflexivity | reflexivity | discriminate].
Defined.

(** The socket of a new shard closes, the reconnect timer fires, and the
    close handler and the timer are called twice more: one reconnect was
    scheduled, at 3000 ms, no second socket was opened, and the shard is
    closed, without a socket, with one attempt counted. *)
Example reconnect_trace :
  let calls :=
    [call_connect Sample.socket; call_websocketConnectionOpen;
     call_websocketCloseConnection 1006 "lost"; call_connect Sample.socket;
     call_websocketCloseConnection 1006 "lost"; call_connect Sample.socket;
     call_websocketCloseConnection 1006 "lost"; call_connect Sample.socket] in
  scheduled_reconnects (snd (Sample.run calls (new 0))) = [3000] /\
  opened (snd (Sample.run calls (new 0))) = [Sample.websocketURL] /\
  status (fst (Sample.run calls (new 0))) = CLOSED /\
  connection (fst (Sample.run calls (new 0))) = None /\
  reconnectInterval (fst (Sample.run calls (new 0))) = 6000 /\
  reconnectAttempts (fst (Sample.run calls (new 0))) = 1.
Proof. repeat split. Qed.

(** The sequence of a shard that is ready and then told its session is
    invalid, before and after the disconnect that follows a close. *)
Example invalid_session_trace :
  let ready :=
    {| op := 0; d := d_object (Some "session") None; s := Some 1;
       t := t_name "READY" |} in
  let before :=
    [call_connect Sample.socket; call_websocketConnectionOpen;
     call_packetReceive 1 ready; call_packetReceive 2 (Sample.frame 9)] in
  sequence (fst (Sample.run [call_connect Sample.socket;
                             call_websocketConnectionOpen;
                             call_packetReceive 1 ready] (new 0))) = 1 /\
  sequence (fst (Sample.run before (new 0))) = 0 /\
  sequence (fst (Sample.run
                   (before ++ [call_websocketCloseConnection 1006 "lost"])
                   (new 0))) = 0.
Proof. repeat split. Qed.

End ShardExamples.

(** * Further properties *)

(** ** The cache: lookups, removal and the sweep *)

Section CollectionLookups.

Import Collection.

Context {V : Type}.

Lemma Map_get_has (k : string) (v : V) (m : Map V) :
  Map_get k m = Some v -> Map_has k m = true.
Proof.
  induction m as [|[k' v'] m IH]; simpl; [discriminate|].
  destruct (String.eqb k k'); simpl; [reflexivity | exact IH].
Qed.

Lemma Map_get_app (k : string) (m1 m2 : Map V) :
  Map_get k (m1 ++ m2)%list
  = match Map_get k m1 with
    | Some v => Some v
    | None => Map_get k m2
    end.
Proof.
  induction m1 as [|[k' v'] m1 IH]; simpl; [reflexivity|].
  destruct (String.eqb k k'); [reflexivity | exact IH].
Qed.

Lemma Map_get_delete_other (k k' : string) (m : Map V) :
  k <> k' -> Map_get k (Map_delete (StringKey k') m) = Map_get k m.
Proof.
  intros Hne. induction m as [|[k0 v0] m IH]; simpl; [reflexivity|].
  destruct (String.eqb_spec k' k0) as [->|Hk0]; simpl.
  - destruct (String.eqb_spec k k0) as [->|_]; [contradiction | exact IH].
  - destruct (String.eqb k k0); [reflexivity | exact IH].
Qed.

Lemma Map_delete_absent (k : string) (m : Map V) :
  Map_has k m = false -> Map_delete (StringKey k) m = m.
Proof.
  induction m as [|[k' v'] m IH]; simpl; [reflexivity|].
  destruct (String.eqb k k'); simpl; [discriminate|].
  intros H. f_equal. exact (IH H).
Qed.

Lemma Map_delete_app (k : string) (m1 m2 : Map V) :
  Map_delete (StringKey k) (m1 ++ m2)%list
  = (Map_delete (StringKey k) m1 ++ Map_delete (StringKey k) m2)%list.
Proof. simpl. apply filter_app. Qed.

Lemma Map_has_In (k : string) (m : Map V) :
  Map_has k m = true <-> In k (Map_keys m).
Proof.
  induction m as [|[k' v'] m IH]; simpl; [split; [discriminate | tauto]|].
  destruct (String.eqb_spec k k') as [->|Hne]; simpl.
  - split; auto.
  - rewrite IH. split; [auto | intros [E|H]; [congruence | exact H]].
Qed.

Lemma Map_has_not_In (k : string) (m : Map V) :
  Map_has k m = false <-> ~ In k (Map_keys m).
Proof.
  rewrite <- Map_has_In. destruct (Map_has k m); split;
    congruence || (intros H; exfalso; apply H; reflexivity) || auto.
Qed.

Lemma Map_keys_delete (k : string) (m : Map V) :
  Map_keys (Map_delete (StringKey k) m)
  = List.filter (fun k' => negb (String.eqb k k')) (Map_keys m).
Proof.
  induction m as [|[k' v'] m IH]; simpl; [reflexivity|].
  destruct (String.eqb k k'); simpl; [exact IH | f_equal; exact IH].
Qed.

Lemma NoDup_delete (k : string) (m : Map V) :
  NoDup (Map_keys m) -> NoDup (Map_keys (Map_delete (StringKey k) m)).
Proof. intros H. rewrite Map_keys_delete. apply NoDup_filter, H. Qed.

(** With distinct keys a deletion takes out at most one entry. *)
Lemma length_delete (k : string) (m : Map V) :
  NoDup (Map_keys m) ->
  (List.length m <= S (List.length (Map_delete (StringKey k) m)))%nat.
Proof.
  induction m as [|[k' v'] m IH]; simpl; [lia|].
  intros Hd. inversion Hd as [|x xs Hx Hd']; subst.
  destruct (String.eqb_spec k k') as [->|Hne]; simpl.
  - fold (Map_delete (StringKey k') m).
    rewrite Map_delete_absent; [lia|]. apply Map_has_not_In, Hx.
  - specialize (IH Hd'). simpl in IH. lia.
Qed.

Lemma length_delete_le (k : string) (m : Map V) :
  (List.length (Map_delete (StringKey k) m) <= List.length m)%nat.
Proof. simpl. apply filter_length_le. Qed.

(** With distinct keys, the value found under a key is the one of its only
    entry. *)
Lemma Map_get_In (k : string) (v : V) (m : Map V) :
  NoDup (Map_keys m) -> In (k, v) m -> Map_get k m = Some v.
Proof.
  induction m as [|[k' v'] m IH]; simpl; [tauto|].
  intros Hd Hin. inversion Hd as [|x xs Hx Hd']; subst.
  destruct Hin as [E|Hin].
  - inversion E; subst. rewrite String.eqb_refl. reflexivity.
  - destruct (String.eqb_spec k k') as [->|_]; [|exact (IH Hd' Hin)].
    exfalso. apply Hx. change k' with (fst (k', v)).
    apply in_map. exact Hin.
Qed.

End CollectionLookups.

Section CollectionExtras.

Import Collection.

(** X1.  [add] with a key that is stored returns the stored value and
    leaves the collection as it is: the new item is neither stored nor
    returned. *)
Theorem X1_add_stored_key_returns_stored_value
  {V : Type} (c : Collection V) (k : string) (v item : V) :
  is_zero (limit c) = false ->
  Map_get k (entries c) = Some v ->
  add (Some k) item c = (Return (Value v), c).
Proof.
  intros Hz Hg. unfold add. rewrite Hz, (Map_get_has k v _ Hg).
  unfold get_value. rewrite Hg. reflexivity.
Qed.

Lemma X1_add_stored_key_returns_stored_value_witness :
  add (Some "a") 5 (add_all [("a", 1); ("b", 2)] (new Sample.cache Infinity))
  = (Return (Value 1),
     add_all [("a", 1); ("b", 2)] (new Sample.cache Infinity)).
Proof.
  apply (X1_add_stored_key_returns_stored_value
           (add_all [("a", 1); ("b", 2)] (new Sample.cache Infinity))
           "a" 1 5); reflexivity.
Defined.

(** X2.  After [add] of a key that was not stored, on a cache whose limit
    is not 0, the key is found with the added item, it is the last of the
    keys, and the size has grown by one. *)
Theorem X2_add_then_lookup
  {V : Type} (c : Collection V) (k : string) (item : V) :
  is_zero (limit c) = false ->
  Map_has k (entries c) = false ->
  get_value k (entries (snd (add (Some k) item c))) = Value item /\
  Map_keys (entries (snd (add (Some k) item c)))
  = (Map_keys (entries c) ++ [k])%list /\
  size (snd (add (Some k) item c)) = size c + 1.
Proof.
  intros Hz Hk. rewrite (add_fresh k item c Hz Hk).
  cbn [snd entries with_entries]. split; [|split].
  - unfold get_value. rewrite Map_get_app, (Map_has_get k _ Hk).
    simpl. rewrite String.eqb_refl. reflexivity.
  - unfold Map_keys. rewrite map_app. reflexivity.
  - unfold size, Map_size. cbn [entries with_entries].
    rewrite length_app. simpl. lia.
Qed.

Lemma X2_add_then_lookup_witness :
  get_value "x"
    (entries (snd (add (Some "x") 7 (new Sample.cache (Finite 100)))))
  = Value 7 /\
  Map_keys (entries (snd (add (Some "x") 7 (new Sample.cache (Finite 100)))))
  = (Map_keys (entries (new Sample.cache (Finite 100))) ++ ["x"])%list /\
  size (snd (add (Some "x") 7 (new Sample.cache (Finite 100))))
  = size (new Sample.cache (Finite 100)) + 1.
Proof.
  apply (X2_add_then_lookup (new Sample.cache (Finite 100)) "x" 7);
    reflexivity.
Defined.

(** X3.  [add] never changes what is found under a key that is stored,
    whatever id and item it is given. *)
Theorem X3_add_keeps_stored_values
  {V : Type} (c : Collection V) (id : option string) (item : V)
  (k : string) (v : V) :
  Map_get k (entries c) = Some v ->
  Map_get k (entries (snd (add id item c))) = Some v.
Proof.
  intros Hg. unfold add.
  destruct (is_zero (limit c)); [exact Hg|].
  destruct id as [k'|]; [|exact Hg].
  destruct (Map_has k' (entries c)) eqn:Hk'; [exact Hg|].
  destruct (exceeded (size c) (limit c));
    rewrite ?Map_delete_array, (Map_set_fresh _ _ _ Hk');
    cbn [snd entries with_entries]; rewrite Map_get_app, Hg; reflexivity.
Qed.

Lemma X3_add_keeps_stored_values_witness :
  Map_get "a"
    (entries (snd (add (Some "c") 3
       (add_all [("a", 1); ("b", 2)] (new Sample.no_cache (Finite 2))))))
  = Some 1.
Proof.
  apply (X3_add_keeps_stored_values
           (add_all [("a", 1); ("b", 2)] (new Sample.no_cache (Finite 2)))
           (Some "c") 3 "a" 1).
  reflexivity.
Defined.



(** X5.  [remove] leaves every other key as it is: what is found under a
    key other than the removed one is the same before and after. *)
Theorem X5_remove_leaves_other_keys
  {V : Type} (c : Collection V) (id : option string) (k : string) :
  id <> Some k ->
  Map_get k (entries (snd (remove id c))) = Map_get k (entries c).
Proof.
  intros Hne. unfold remove. destruct id as [k'|]; [|reflexivity].
  destruct (Map_has k' (entries c)); [|reflexivity].
  cbn [negb snd entries with_entries].
  apply Map_get_delete_other. intros ->. apply Hne. reflexivity.
Qed.

Lemma X5_remove_leaves_other_keys_witness :
  Map_get "b"
    (entries (snd (remove (Some "a")
       (add_all [("a", 1); ("b", 2)] (new Sample.no_cache (Finite 2))))))
  = Map_get "b"
      (entries (add_all [("a", 1); ("b", 2)] (new Sample.no_cache (Finite 2)))).
Proof.
  apply (X5_remove_leaves_other_keys
           (add_all [("a", 1); ("b", 2)] (new Sample.no_cache (Finite 2)))
           (Some "a") "b").
  discriminate.
Defined.

End CollectionExtras.

Section CollectionSweep.

Import Collection.

Context {V : Type}.

Lemma sweep_loop_NoDup (toRemove : option (string -> V -> bool))
  (quota : option Z) (pending : Map V) :
  forall (removedItems : Z) (m : Map V),
    NoDup (Map_keys m) ->
    NoDup (Map_keys (snd (sweep_loop toRemove quota pending removedItems m))).
Proof.
  induction pending as [|[id item] pending IH]; intros removed m Hd; simpl;
    [exact Hd|].
  destruct (quota_reached removed quota); [exact Hd|].
  destruct toRemove as [p|]; [|exact Hd].
  destruct (p id item); [|exact (IH _ _ Hd)].
  apply IH. apply (NoDup_delete id m Hd).
Qed.

Lemma sweep_loop_shrinks (toRemove : option (string -> V -> bool))
  (quota : option Z) (pending : Map V) :
  forall (removedItems : Z) (m : Map V),
    (List.length (snd (sweep_loop toRemove quota pending removedItems m))
     <= List.length m)%nat.
Proof.
  induction pending as [|[id item] pending IH]; intros removed m; simpl;
    [lia|].
  destruct (quota_reached removed quota); [simpl; lia|].
  destruct toRemove as [p|]; [|simpl; lia].
  destruct (p id item); [|exact (IH _ _)].
  specialize (IH (removed + 1) (Map_delete (StringKey id) m)).
  pose proof (length_delete_le id m). simpl in *. lia.
Qed.

Lemma sweep_loop_quota (toRemove : option (string -> V -> bool))
  (q : Z) (pending : Map V) :
  forall (removedItems : Z) (m : Map V),
    NoDup (Map_keys m) ->
    Z.of_nat (List.length m)
    - Z.of_nat (List.length
                  (snd (sweep_loop toRemove (Some q) pending removedItems m)))
    <= Z.max 0 (q - removedItems).
Proof.
  induction pending as [|[id item] pending IH]; intros removed m Hd; simpl;
    [lia|].
  destruct (Z.leb_spec q removed) as [Hq|Hq]; [simpl; lia|].
  destruct toRemove as [p|]; [|simpl; lia].
  destruct (p id item); [|specialize (IH removed m Hd); lia].
  specialize (IH (removed + 1) _ (NoDup_delete id m Hd)).
  pose proof (length_delete id m Hd). simpl in *. lia.
Qed.

Lemma sweep_loop_keeps (p : string -> V -> bool) (quota : option Z)
  (k : string) (v : V) (pending : Map V) :
  forall (removedItems : Z) (m : Map V),
    (forall item, In (k, item) pending -> p k item = false) ->
    Map_get k m = Some v ->
    Map_get k (snd (sweep_loop (Some p) quota pending removedItems m))
    = Some v.
Proof.
  induction pending as [|[id item] pending IH]; intros removed m Hp Hg;
    cbn [sweep_loop]; [exact Hg|].
  destruct (quota_reached removed quota); [exact Hg|].
  assert (Hp' : forall item', In (k, item') pending -> p k item' = false)
    by (intros item' H; apply Hp; right; exact H).
  destruct (p id item) eqn:E; [|exact (IH _ _ Hp' Hg)].
  apply (IH _ _ Hp').
  rewrite Map_get_delete_other; [exact Hg|].
  intros ->. rewrite (Hp item (or_introl eq_refl)) in E. discriminate.
Qed.

(** Without a quota the loop deletes every pending entry the predicate
    accepts. *)
Lemma sweep_loop_all (p : string -> V -> bool) (pending : Map V) :
  forall (removedItems : Z) (visited : Map V),
    NoDup (Map_keys (visited ++ pending)%list) ->
    sweep_loop (Some p) None pending removedItems (visited ++ pending)%list
    = (Return tt,
       (visited
        ++ List.filter (fun e => negb (p (fst e) (snd e))) pending)%list).
Proof.
  induction pending as [|[id item] pending IH]; intros removed visited Hd;
    simpl; [reflexivity|].
  destruct (p id item) eqn:E; simpl.
  - assert (Hv : Map_has id visited = false /\ Map_has id pending = false).
    { unfold Map_keys in Hd. rewrite map_app in Hd. simpl in Hd.
      apply NoDup_remove_2 in Hd. split; apply Map_has_not_In;
        intros H; apply Hd; apply in_or_app; [left | right]; exact H. }
    destruct Hv as [Hv Hp].
    assert (Hdel : Map_delete (StringKey id)
                     (visited ++ (id, item) :: pending)%list
                   = (visited ++ pending)%list).
    { rewrite Map_delete_app, (Map_delete_absent id _ Hv). f_equal.
      simpl. rewrite String.eqb_refl. simpl.
      exact (Map_delete_absent id _ Hp). }
    simpl in Hdel. rewrite Hdel. apply IH.
    unfold Map_keys in *. rewrite map_app in *. simpl in Hd.
    exact (NoDup_remove_1 _ _ _ Hd).
  - replace (visited ++ (id, item) :: pending)%list
      with ((visited ++ [(id, item)]) ++ pending)%list
      by (rewrite <- app_assoc; reflexivity).
    rewrite IH.
    + rewrite <- app_assoc. reflexivity.
    + rewrite <- app_assoc. exact Hd.
Qed.

Lemma add_NoDup (id : option string) (item : V) (c : Collection V) :
  NoDup (Map_keys (entries c)) ->
  NoDup (Map_keys (entries (snd (add id item c)))).
Proof.
  intros Hd. unfold add.
  destruct (is_zero (limit c)); [exact Hd|].
  destruct id as [k|]; [|exact Hd].
  destruct (Map_has k (entries c)) eqn:Hk; [exact Hd|].
  destruct (exceeded (size c) (limit c));
    rewrite ?Map_delete_array, (Map_set_fresh _ _ _ Hk);
    cbn [snd entries with_entries]; unfold Map_keys; rewrite map_app;
    apply NoDup_app; simpl;
    try solve [exact Hd | (constructor; [tauto | constructor])];
    intros x Hx [<-|[]]; apply (proj1 (Map_has_not_In _ _) Hk Hx).
Qed.

Lemma remove_NoDup (id : option string) (c : Collection V) :
  NoDup (Map_keys (entries c)) ->
  NoDup (Map_keys (entries (snd (remove id c)))).
Proof.
  intros Hd. unfold remove. destruct id as [k|]; [|exact Hd].
  destruct (Map_has k (entries c)); [|exact Hd].
  cbn [negb snd entries with_entries]. apply NoDup_delete, Hd.
Qed.

End CollectionSweep.

Section CollectionInvariants.

Import Collection.

(** The keys of a collection stay pairwise distinct: if they are before
    an [add], a [remove] or a sweep, they are after it. *)
Lemma keys_stay_distinct
  {V : Type} (c : Collection V) (id : option string) (item : V)
  (toRemove : option (string -> V -> bool)) :
  NoDup (Map_keys (entries c)) ->
  NoDup (Map_keys (entries (snd (add id item c)))) /\
  NoDup (Map_keys (entries (snd (remove id c)))) /\
  NoDup (Map_keys (entries (snd (fst (private_sweep toRemove c))))).
Proof.
  intros Hd. split; [exact (add_NoDup id item c Hd)|].
  split; [exact (remove_NoDup id c Hd)|].
  unfold private_sweep.
  pose proof (sweep_loop_NoDup toRemove (sweep (cache c)) (entries c) 0
                (entries c) Hd) as H.
  destruct (sweep_loop toRemove (sweep (cache c)) (entries c) 0 (entries c))
    as [[[]|e] m]; exact H.
Qed.

Example keys_stay_distinct_users :
  NoDup (Map_keys (entries (snd (add (Some "e") 5 Sample.users)))) /\
  NoDup (Map_keys (entries (snd (remove (Some "e") Sample.users)))) /\
  NoDup (Map_keys (entries
    (snd (fst (private_sweep (Some Sample.stale) Sample.users))))).
Proof.
  apply (keys_stay_distinct Sample.users (Some "e") 5 (Some Sample.stale)).
  repeat constructor; simpl; intuition discriminate.
Defined.

(** X6.  A collection whose limit is 0 stores nothing: any sequence of
    [add] calls leaves its entries as they are. *)
Theorem X6_limit_zero_stores_nothing
  {V : Type} (c : Collection V) (items : list (string * V)) :
  limit c = Finite 0 ->
  add_all items c = c.
Proof.
  intros Hl. induction items as [|[k item] items IH]; simpl; [reflexivity|].
  unfold add. rewrite Hl. simpl. exact IH.
Qed.

Lemma X6_limit_zero_stores_nothing_witness :
  add_all Sample.four_items (new Sample.cache (Finite 0))
  = new Sample.cache (Finite 0).
Proof.
  apply (X6_limit_zero_stores_nothing (new Sample.cache (Finite 0))
           Sample.four_items).
  reflexivity.
Defined.

(** X7.  [map] never throws and changes nothing: it returns the images of
    the stored values, one for each entry, in insertion order. *)
Theorem X7_map_images_in_insertion_order
  {V B : Type} (func : V -> B) (c : Collection V) :
  map func c = (Return (List.map (fun e => func (snd e)) (entries c)), c) /\
  Z.of_nat (List.length (List.map (fun e => func (snd e)) (entries c)))
  = size c.
Proof.
  assert (E : map func c
              = (Return (List.map (fun e => func (snd e)) (entries c)), c)).
  { unfold map, values_call, for_of, Map_values.
    rewrite fold_left_push, map_map. reflexivity. }
  split; [exact E|].
  unfold size, Map_size. rewrite length_map. reflexivity.
Qed.

(** X8.  A sweep deletes at most as many entries as the quota
    [cache.sweep] says (none when the quota is 0 or less), and never adds
    any. *)
Theorem X8_sweep_deletes_at_most_the_quota
  {V : Type} (toRemove : option (string -> V -> bool)) (c : Collection V)
  (q : Z) :
  NoDup (Map_keys (entries c)) ->
  sweep (cache c) = Some q ->
  size (snd (fst (private_sweep toRemove c))) <= size c /\
  size c - size (snd (fst (private_sweep toRemove c))) <= Z.max 0 q.
Proof.
  intros Hd Hq. unfold private_sweep. rewrite Hq.
  pose proof (sweep_loop_shrinks toRemove (Some q) (entries c) 0 (entries c))
    as H1.
  pose proof (sweep_loop_quota toRemove q (entries c) 0 (entries c) Hd) as H2.
  destruct (sweep_loop toRemove (Some q) (entries c) 0 (entries c))
    as [[[]|e] m]; unfold size, Map_size; simpl in *; lia.
Qed.

Lemma X8_sweep_deletes_at_most_the_quota_witness :
  size (snd (fst (private_sweep (Some Sample.stale) Sample.users)))
  <= size Sample.users /\
  size Sample.users
  - size (snd (fst (private_sweep (Some Sample.stale) Sample.users)))
  <= Z.max 0 2.
Proof.
  apply (X8_sweep_deletes_at_most_the_quota (Some Sample.stale) Sample.users 2).
  - repeat constructor; simpl; intuition discriminate.
  - reflexivity.
Defined.

(** X9.  A sweep never deletes an entry its predicate rejects: a key
    stored with a value the predicate returns false for is found with that
    value after the sweep. *)
Theorem X9_sweep_keeps_rejected_entries
  {V : Type} (p : string -> V -> bool) (c : Collection V)
  (k : string) (v : V) :
  NoDup (Map_keys (entries c)) ->
  Map_get k (entries c) = Some v ->
  p k v = false ->
  Map_get k (entries (snd (fst (private_sweep (Some p) c)))) = Some v.
Proof.
  intros Hd Hg Hp. unfold private_sweep.
  assert (H : Map_get k (snd (sweep_loop (Some p) (sweep (cache c))
                                (entries c) 0 (entries c))) = Some v).
  { apply sweep_loop_keeps; [|exact Hg].
    intros item Hin. rewrite (Map_get_In k item _ Hd Hin) in Hg.
    inversion Hg; subst. exact Hp. }
  destruct (sweep_loop (Some p) (sweep (cache c)) (entries c) 0 (entries c))
    as [[[]|e] m]; exact H.
Qed.

Lemma X9_sweep_keeps_rejected_entries_witness :
  Map_get "b"
    (entries (snd (fst (private_sweep (Some Sample.stale) Sample.users))))
  = Some 20.
Proof.
  apply (X9_sweep_keeps_rejected_entries Sample.stale Sample.users "b" 20).
  - repeat constructor; simpl; intuition discriminate.
  - reflexivity.
  - reflexivity.
Defined.

(** X10.  When the options give no quota ([cache.sweep] is undefined), a
    sweep deletes every entry its predicate accepts and keeps the others in
    their order, and it sets the timer for the next sweep, 10000 ms
    ahead. *)
Theorem X10_sweep_without_quota_deletes_all_accepted
  {V : Type} (p : string -> V -> bool) (c : Collection V) :
  NoDup (Map_keys (entries c)) ->
  sweep (cache c) = None ->
  private_sweep (Some p) c
  = (Return tt,
     with_entries
       (List.filter (fun e => negb (p (fst e) (snd e))) (entries c)) c,
     [10000]).
Proof.
  intros Hd Hq. unfold private_sweep. rewrite Hq.
  pose proof (sweep_loop_all p (entries c) 0 [] Hd) as H.
  change ([] ++ entries c)%list with (entries c) in H.
  rewrite H. reflexivity.
Qed.

Lemma X10_sweep_without_quota_deletes_all_accepted_witness :
  private_sweep (Some Sample.stale) Sample.users_no_quota
  = (Return tt,
     with_entries
       (List.filter (fun e => negb (Sample.stale (fst e) (snd e)))
          (entries Sample.users_no_quota))
       Sample.users_no_quota,
     [10000]).
Proof.
  apply (X10_sweep_without_quota_deletes_all_accepted Sample.stale
           Sample.users_no_quota).
  - repeat constructor; simpl; intuition discriminate.
  - reflexivity.
Defined.

End CollectionInvariants.

(** ** The shard: handshake, frames and disconnect *)

Section ShardHandshake.

Import Gateway Shard.

Variable OP_CODES : Gateway.OP_CODES.
Variable websocketURL : string.
Variable client : Client.
Variable platform : string.

Ltac run_shard :=
  unfold packetReceive, packetReceive_t, packetReceive_op, sendHeartbeat,
    identify, sendWebsocketMessage, disconnect, connect,
    completion_of, state_after, effects_of,
    bind, get, modify, perform, ret, when, throw.

(** A frame whose event type is not READY passes the first switch. *)
Lemma not_ready (t0 : EventType) :
  t0 <> t_name "READY" ->
  match t0 with
  | t_name name => String.eqb name "READY" = false
  | _ => True
  end.
Proof.
  intros Ht. destruct t0 as [| |name]; auto.
  destruct (String.eqb_spec name "READY"); auto.
  subst. exfalso. apply Ht. reflexivity.
Qed.

(** X11.  A shard with a socket that holds a session answers HELLO with
    one RESUME frame and nothing else, unless its status is CLOSED, in
    which case it sends nothing: the frame carries the token, the session
    and the shard's sequence.  Either way the session is kept and
    [lastHeartbeatAcked] is left as it is. *)
Theorem X11_hello_resumes_a_held_session
  (this : Shard) (socket : Websocket) (now : Z) (packet : Packet)
  (session : string) :
  connection this = Some socket ->
  sessionId this = Some session ->
  session <> EmptyString ->
  op packet = HELLO OP_CODES ->
  HELLO OP_CODES <> EVENT OP_CODES ->
  HELLO OP_CODES <> HEARTBEAT OP_CODES ->
  HELLO OP_CODES <> HEARTBEAT_ACK OP_CODES ->
  t packet <> t_name "READY" ->
  let hello := packetReceive OP_CODES client platform now packet this in
  completion_of hello = Return tt /\
  sent (effects_of hello)
  = (if Status_eqb (status this) CLOSED then []
     else [{| m_op := RESUME OP_CODES;
              m_d := ResumeData (token client) session
                       (sequence (state_after hello)) |}]) /\
  sessionId (state_after hello) = Some session /\
  lastHeartbeatAcked (state_after hello) = lastHeartbeatAcked this.
Proof.
  intros Hc Hsid Hne Hop He Hh Ha Ht hello. subst hello.
  destruct this as [i sq sid acked ack rcv hb ri ra st cn].
  destruct packet as [o d0 s0 t0]. simpl in *. subst cn o sid.
  apply Z.eqb_neq in He, Hh, Ha.
  pose proof (not_ready t0 Ht) as Ht'.
  assert (Hse : String.eqb session EmptyString = false)
    by (apply String.eqb_neq; exact Hne).
  run_shard. simpl.
  destruct s0 as [n|]; [destruct (n =? 0)|]; simpl;
    (destruct t0 as [| |name]; [| |rewrite Ht']); simpl;
    rewrite He, Hh, Ha, Z.eqb_refl; simpl;
    destruct (heartbeat_interval_of d0); simpl;
    try destruct hb; simpl; rewrite Hse; simpl;
    destruct st; simpl; repeat split.
Qed.

(** X12.  A shard with a socket that holds no session answers HELLO with
    an IDENTIFY frame followed by a heartbeat, unless its status is CLOSED,
    in which case it sends nothing: the IDENTIFY carries the token, the
    intents, the shard id with the shard count, the version and the
    platform; the heartbeat carries the sequence.  Either way
    [lastHeartbeatAcked] ends false. *)
Theorem X12_hello_identifies_without_session
  (this : Shard) (socket : Websocket) (now : Z) (packet : Packet) :
  connection this = Some socket ->
  truthy_string (sessionId this) = false ->
  op packet = HELLO OP_CODES ->
  HELLO OP_CODES <> EVENT OP_CODES ->
  HELLO OP_CODES <> HEARTBEAT OP_CODES ->
  HELLO OP_CODES <> HEARTBEAT_ACK OP_CODES ->
  t packet <> t_name "READY" ->
  let hello := packetReceive OP_CODES client platform now packet this in
  completion_of hello = Return tt /\
  sent (effects_of hello)
  = (if Status_eqb (status this) CLOSED then []
     else [{| m_op := IDENTIFY OP_CODES;
              m_d := IdentifyData (token client) (intents (options client))
                       (id this, shardCount (options client))
                       (version (ws (options client)))
                       platform "hitomi" "hitomi" |};
           {| m_op := HEARTBEAT OP_CODES;
              m_d := HeartbeatData (sequence (state_after hello)) |}]) /\
  lastHeartbeatAcked (state_after hello) = false.
Proof.
  intros Hc Hsid Hop He Hh Ha Ht hello. subst hello.
  destruct this as [i sq sid acked ack rcv hb ri ra st cn].
  destruct packet as [o d0 s0 t0]. simpl in *. subst cn o.
  apply Z.eqb_neq in He, Hh, Ha.
  pose proof (not_ready t0 Ht) as Ht'.
  run_shard. simpl.
  destruct s0 as [n|]; [destruct (n =? 0)|]; simpl;
    (destruct t0 as [| |name]; [| |rewrite Ht']); simpl;
    rewrite He, Hh, Ha, Z.eqb_refl; simpl;
    destruct (heartbeat_interval_of d0); simpl;
    try destruct hb; simpl;
    (destruct sid as [session|]; simpl;
     [simpl in Hsid; apply negb_false_iff in Hsid; rewrite Hsid; simpl|]);
    destruct st; simpl; repeat split.
Qed.


End ShardHandshake.

Section ShardHandshakeExamples.

Import Gateway Shard.

Lemma X11_hello_resumes_a_held_session_witness :
  let hello :=
    packetReceive Sample.OP_CODES Sample.client Sample.platform 1
      Sample.hello Sample.resumable in
  completion_of hello = Return tt /\
  sent (effects_of hello)
  = (if Status_eqb (status Sample.resumable) CLOSED then []
     else [{| m_op := RESUME Sample.OP_CODES;
              m_d := ResumeData (token Sample.client) "session"
                       (sequence (state_after hello)) |}]) /\
  sessionId (state_after hello) = Some "session" /\
  lastHeartbeatAcked (state_after hello)
  = lastHeartbeatAcked Sample.resumable.
Proof.
  apply (X11_hello_resumes_a_held_session Sample.OP_CODES Sample.client
           Sample.platform Sample.resumable Sample.socket 1 Sample.hello
           "session"); try reflexivity; discriminate.
Defined.

Lemma X12_hello_identifies_without_session_witness :
  let hello :=
    packetReceive Sample.OP_CODES Sample.client Sample.platform 1
      Sample.hello Sample.open in
  completion_of hello = Return tt /\
  sent (effects_of hello)
  = (if Status_eqb (status Sample.open) CLOSED then []
     else [{| m_op := IDENTIFY Sample.OP_CODES;
              m_d := IdentifyData (token Sample.client)
                       (intents (options Sample.client))
                       (id Sample.open, shardCount (options Sample.client))
                       (version (ws (options Sample.client)))
                       Sample.platform "hitomi" "hitomi" |};
           {| m_op := HEARTBEAT Sample.OP_CODES;
              m_d := HeartbeatData (sequence (state_after hello)) |}]) /\
  lastHeartbeatAcked (state_after hello) = false.
Proof.
  apply (X12_hello_identifies_without_session Sample.OP_CODES Sample.client
           Sample.platform Sample.open Sample.socket 1 Sample.hello);
    try reflexivity; discriminate.
Defined.

(** HELLO on a shard whose socket closed while [terminate] threw: the shard
    is closed but still holds the socket, and answers with no frame. *)
Example hello_on_a_closed_shard :
  let closed :=
    fst (Sample.run [call_websocketCloseConnection 1006 "lost"] Sample.stuck) in
  let hello :=
    packetReceive Sample.OP_CODES Sample.client Sample.platform 1
      Sample.hello closed in
  status closed = CLOSED /\
  connection closed = Some Sample.stuck_socket /\
  completion_of hello = Return tt /\
  sent (effects_of hello) = [] /\
  lastHeartbeatAcked (state_after hello) = false.
Proof. repeat split. Qed.


End ShardHandshakeExamples.

Section ShardFrames.

Import Gateway Shard.

Variable OP_CODES : Gateway.OP_CODES.
Variable websocketURL : string.
Variable client : Client.
Variable platform : string.

Ltac run_shard :=
  unfold packetReceive, packetReceive_t, packetReceive_op, sendHeartbeat,
    identify, sendWebsocketMessage, disconnect, connect,
    completion_of, state_after, effects_of,
    bind, get, modify, perform, ret, when, throw.

Ltac branches :=
  repeat (simpl;
          match goal with
          | |- context [if ?b then _ else _] => destruct b eqn:?
          | |- context [match ?x with Some _ => _ | None => _ end] =>
              destruct x eqn:?
          end).

(** X14.  A dispatch frame of type READY with an object payload, received
    on a shard with a socket: the session id of the payload is stored, the
    status becomes READY, one heartbeat is sent (so [lastHeartbeatAcked]
    ends false), and the frame is handed to the manager. *)
Theorem X14_ready_stores_the_session
  (this : Shard) (socket : Websocket) (now : Z) (packet : Packet)
  (session_id : option string) (interval : option Z) :
  connection this = Some socket ->
  t packet = t_name "READY" ->
  d packet = d_object session_id interval ->
  op packet = EVENT OP_CODES ->
  let ready := packetReceive OP_CODES client platform now packet this in
  completion_of ready = Return tt /\
  sessionId (state_after ready) = session_id /\
  status (state_after ready) = READY /\
  lastHeartbeatAcked (state_after ready) = false /\
  sent (effects_of ready)
  = [{| m_op := HEARTBEAT OP_CODES;
        m_d := HeartbeatData (sequence (state_after ready)) |}] /\
  forwarded (effects_of ready) = [packet].
Proof.
  intros Hc Ht Hd Hop ready. subst ready.
  destruct this as [i sq sid acked ack rcv hb ri ra st cn].
  destruct packet as [o d0 s0 t0]. simpl in *. subst cn o t0 d0.
  run_shard. simpl.
  destruct s0 as [n|]; [destruct (n =? 0)|]; simpl;
    rewrite Z.eqb_refl; simpl; repeat split.
Qed.

(** What [packetReceive] hands to the manager. *)
Lemma packetReceive_forwards (this : Shard) (now : Z) (packet : Packet) :
  forwarded (effects_of
               (packetReceive OP_CODES client platform now packet this)) = [] \/
  op packet = EVENT OP_CODES /\
  forwarded (effects_of
               (packetReceive OP_CODES client platform now packet this))
  = [packet] /\
  completion_of (packetReceive OP_CODES client platform now packet this)
  = Return tt.
Proof.
  destruct this as [i sq sid acked ack rcv hb ri ra st cn].
  destruct packet as [o d0 s0 t0].
  run_shard. cbn [op d s t].
  destruct s0 as [n|]; [destruct (n =? 0)|];
    destruct t0 as [| |name]; destruct d0; branches;
    first [ left; reflexivity
          | right; repeat split; apply Z.eqb_eq; assumption ].
Qed.

(** X15.  Whatever frame a shard receives, in whatever state, it hands to
    the manager either nothing or, when the opcode is EVENT, that one
    frame: frames with another opcode never reach the manager. *)
Theorem X15_only_dispatch_frames_reach_the_manager
  (this : Shard) (now : Z) (packet : Packet) :
  let received := packetReceive OP_CODES client platform now packet this in
  forwarded (effects_of received) = [] \/
  op packet = EVENT OP_CODES /\
  forwarded (effects_of received) = [packet] /\
  completion_of received = Return tt.
Proof. exact (packetReceive_forwards this now packet). Qed.

(** X16.  Only a frame with the INVALID_SESSION opcode resets the
    sequence: after any other frame the sequence is the [s] of the frame
    when that is a number other than 0, and is unchanged otherwise. *)
Theorem X16_sequence_follows_the_frames
  (this : Shard) (now : Z) (packet : Packet) :
  op packet <> INVALID_SESSION OP_CODES ->
  sequence (state_after
              (packetReceive OP_CODES client platform now packet this))
  = match s packet with
    | Some n => if n =? 0 then sequence this else n
    | None => sequence this
    end.
Proof.
  intros Hop. apply Z.eqb_neq in Hop.
  destruct this as [i sq sid acked ack rcv hb ri ra st cn].
  destruct packet as [o d0 s0 t0]. simpl in Hop.
  run_shard. cbn [op d s t sequence].
  destruct s0 as [n|]; [destruct (n =? 0)|];
    destruct t0 as [| |name]; destruct d0; branches;
    try reflexivity; congruence.
Qed.

End ShardFrames.

Section ShardFramesExamples.

Import Gateway Shard.

Lemma X14_ready_stores_the_session_witness :
  let ready :=
    packetReceive Sample.OP_CODES Sample.client Sample.platform 1
      Sample.ready Sample.open in
  completion_of ready = Return tt /\
  sessionId (state_after ready) = Some "session" /\
  status (state_after ready) = READY /\
  lastHeartbeatAcked (state_after ready) = false /\
  sent (effects_of ready)
  = [{| m_op := HEARTBEAT Sample.OP_CODES;
        m_d := HeartbeatData (sequence (state_after ready)) |}] /\
  forwarded (effects_of ready) = [Sample.ready].
Proof.
  apply (X14_ready_stores_the_session Sample.OP_CODES Sample.client
           Sample.platform Sample.open Sample.socket 1 Sample.ready
           (Some "session") None); reflexivity.
Defined.

Lemma X16_sequence_follows_the_frames_witness :
  sequence (state_after
              (packetReceive Sample.OP_CODES Sample.client Sample.platform 1
                 (Sample.dispatch "MESSAGE_CREATE") Sample.open))
  = match s (Sample.dispatch "MESSAGE_CREATE") with
    | Some n => if n =? 0 then sequence Sample.open else n
    | None => sequence Sample.open
    end.
Proof.
  apply (X16_sequence_follows_the_frames Sample.OP_CODES Sample.client
           Sample.platform Sample.open 1 (Sample.dispatch "MESSAGE_CREATE")).
  discriminate.
Defined.

End ShardFramesExamples.

Section ShardDisconnect.

Import Gateway Shard.

Variable OP_CODES : Gateway.OP_CODES.
Variable websocketURL : string.
Variable client : Client.
Variable platform : string.

Ltac run_shard :=
  unfold packetReceive, packetReceive_t, packetReceive_op, sendHeartbeat,
    identify, sendWebsocketMessage, disconnect, connect,
    completion_of, state_after, effects_of,
    bind, get, modify, perform, ret, when, throw.

(** What [disconnect] does whatever its branch: the status stays, no socket
    is opened, the backoff state does not go down, and the socket is kept
    only when its [terminate] throws. *)
Lemma disconnect_frame (reconnect : bool) (this : Shard) r this' l :
  disconnect client reconnect this = (r, this', l) ->
  status this' = status this /\
  opened l = [] /\
  reconnectAttempts this <= reconnectAttempts this' /\
  reconnectInterval this <= reconnectInterval this' /\
  (connection this' = None \/
   exists socket, connection this = Some socket /\
                  connection this' = Some socket /\
                  terminate_throws socket = true).
Proof.
  destruct this as [i sq sid acked ack rcv hb ri ra st cn].
  run_shard. simpl.
  destruct cn as [socket|]; simpl.
  2:{ intros H; inversion H; subst; simpl. repeat split; auto; lia. }
  destruct hb; simpl; destruct (terminate_throws socket) eqn:Et; simpl;
    try (intros H; inversion H; subst; simpl; repeat split; try lia;
         right; exists socket; repeat split; assumption);
    destruct (truthy_string sid); simpl;
    destruct (sq =? 0); simpl;
    destruct (reconnect && autoReconnect (options client))%bool; simpl;
    try destruct (5 <=? ra); simpl;
    intros H; inversion H; subst; simpl; repeat split; auto; lia.
Qed.


(** X18.  [disconnect] on a shard with a socket always cancels the
    heartbeat timer the shard holds, also when [terminate] throws. *)
Theorem X18_disconnect_cancels_the_heartbeat
  (this : Shard) (socket : Websocket) (reconnect : bool) :
  connection this = Some socket ->
  heartbeatInterval (state_after (disconnect client reconnect this)) = None /\
  intervals_cleared (effects_of (disconnect client reconnect this))
  = match heartbeatInterval this with Some _ => 1%nat | None => 0%nat end /\
  intervals_set (effects_of (disconnect client reconnect this)) = [].
Proof.
  intros Hc. destruct this as [i sq sid acked ack rcv hb ri ra st cn].
  simpl in Hc. subst cn. run_shard. simpl.
  destruct hb; simpl; destruct (terminate_throws socket); simpl;
    try (repeat split; fail);
    destruct (truthy_string sid); simpl;
    destruct (sq =? 0); simpl;
    destruct (reconnect && autoReconnect (options client))%bool; simpl;
    try destruct (5 <=? ra); simpl; repeat split.
Qed.

(** X19.  When the socket's [terminate] throws, [disconnect] reports a
    shard error and stops: apart from the heartbeat timer, which is
    cancelled, the shard is as before (socket, session, sequence and
    backoff state included), no disconnect event is emitted and no
    reconnect is scheduled. *)
Theorem X19_failed_terminate_stops_the_cleanup
  (this : Shard) (socket : Websocket) (reconnect : bool) :
  connection this = Some socket ->
  terminate_throws socket = true ->
  disconnect client reconnect this
  = (Return tt,
     match heartbeatInterval this with
     | Some _ => set_heartbeatInterval None this
     | None => this
     end,
     (match heartbeatInterval this with
      | Some _ => [ClearInterval]
      | None => []
      end ++ [ClientEmit_shardError (id this)])%list).
Proof.
  intros Hc Ht. destruct this as [i sq sid acked ack rcv hb ri ra st cn].
  simpl in Hc. subst cn. run_shard. simpl. rewrite Ht.
  destruct hb; reflexivity.
Qed.

(** X20.  A [disconnect] that drops the socket leaves no session to
    resume: the session is null or falsy, the sequence is -1 or 0, the
    "ASKED" disconnect event is the first event emitted after the socket is
    terminated, and the status is what it was. *)
Theorem X20_disconnect_forgets_the_session
  (this : Shard) (socket : Websocket) (reconnect : bool) :
  connection this = Some socket ->
  terminate_throws socket = false ->
  let after := state_after (disconnect client reconnect this) in
  connection after = None /\
  truthy_string (sessionId after) = false /\
  (sequence after = -1 \/ sequence after = 0) /\
  status after = status this /\
  exists before rest,
    effects_of (disconnect client reconnect this)
    = (before ++ WsTerminate :: Emit_disconnect "ASKED" :: rest)%list /\
    (before = [] \/ before = [ClearInterval]).
Proof.
  intros Hc Ht after. subst after.
  destruct this as [i sq sid acked ack rcv hb ri ra st cn].
  simpl in Hc. subst cn. run_shard. simpl. rewrite Ht.
  destruct hb; simpl;
    destruct (truthy_string sid) eqn:Es; simpl;
    destruct (Z.eqb_spec sq 0); simpl;
    destruct (reconnect && autoReconnect (options client))%bool; simpl;
    try destruct (5 <=? ra); simpl;
    (split; [reflexivity|]); (split; [reflexivity || exact Es|]);
    (split; [auto|]); (split; [reflexivity|]);
    first [ exists [ClearInterval]; eexists; split; [reflexivity | auto]
          | exists []; eexists; split; [reflexivity | auto] ].
Qed.

Lemma call_opens (c : Call) (this : Shard) r this' l :
  call OP_CODES websocketURL client platform c this = (r, this', l) ->
  (status this <> IDLE -> opened l = []) /\
  (List.length (opened l) <= 1)%nat /\
  (status this <> IDLE \/ opened l <> [] -> status this' <> IDLE) /\
  reconnectAttempts this <= reconnectAttempts this' /\
  reconnectInterval this <= reconnectInterval this'.
Proof.
  assert (Q : forall (m : M unit), quiet m -> m this = (r, this', l) ->
    (status this <> IDLE -> opened l = []) /\
    (List.length (opened l) <= 1)%nat /\
    (status this <> IDLE \/ opened l <> [] -> status this' <> IDLE) /\
    reconnectAttempts this <= reconnectAttempts this' /\
    reconnectInterval this <= reconnectInterval this').
  { intros m Hq Hm.
    destruct (Hq _ _ _ _ Hm) as ((U1 & U2 & U3 & U4) & _ & O).
    rewrite O, U1, U2. simpl. repeat split; auto; try lia.
    intros [H|H]; [exact (U4 H) | exfalso; apply H; reflexivity]. }
  destruct c; simpl; intros H.
  - unfold connect, bind, get, ret, perform, modify in H.
    destruct this as [i sq sid acked ack rcv hb ri ra st cn]. simpl in *.
    destruct st; simpl in H; inversion H; subst; simpl;
      repeat split; auto; try lia; try discriminate;
      try (intros F; exfalso; apply F; reflexivity);
      intros [F|F]; solve [discriminate | exact F
                          | exfalso; apply F; reflexivity].
  - unfold websocketCloseConnection in H.
    unfold bind at 1 in H. unfold modify at 1 in H.
    unfold bind at 1 in H. unfold get at 1 in H.
    unfold bind at 1 in H. unfold perform at 1 in H.
    destruct (disconnect client true (set_status CLOSED this))
      as [[r2 this2] l2] eqn:E.
    destruct (disconnect_frame _ _ _ _ _ E) as (S & O & A & I & _).
    inversion H; subst; clear H. simpl in *. rewrite O, S.
    repeat split; auto; try lia; discriminate.
  - exact (Q _ quiet_websocketError H).
  - exact (Q _ (quiet_packetReceive OP_CODES client platform now packet) H).
  - exact (Q _ quiet_websocketConnectionOpen H).
  - exact (Q _ (quiet_packetReceive OP_CODES client platform now packet) H).
  - exact (Q _ (quiet_identify OP_CODES client platform) H).
  - exact (Q _ (quiet_sendHeartbeat OP_CODES) H).
  - exact (Q _ (quiet_sendWebsocketMessage data) H).
  - destruct (disconnect_frame _ _ _ _ _ H) as (S & O & A & I & _).
    rewrite O, S. simpl. repeat split; auto; try lia.
    intros [F|F]; [exact F | exfalso; apply F; reflexivity].
Qed.

(** X21.  A shard opens at most one socket, whatever calls it receives and
    in whatever order; a shard that is not idle opens none. *)
Theorem X21_a_shard_opens_at_most_one_socket
  (this : Shard) (calls : list Call) :
  (List.length
     (opened (snd (run OP_CODES websocketURL client platform calls this)))
   <= (if Status_eqb (status this) IDLE then 1 else 0))%nat.
Proof.
  revert this. induction calls as [|c calls IH]; intros this; simpl.
  - destruct (Status_eqb (status this) IDLE); simpl; lia.
  - destruct (call OP_CODES websocketURL client platform c this)
      as [[r1 this1] l1] eqn:E1.
    destruct (run OP_CODES websocketURL client platform calls this1)
      as [this2 l2] eqn:E2.
    simpl. rewrite opened_app, length_app.
    destruct (call_opens _ _ _ _ _ E1) as (H1 & H2 & H3 & _).
    specialize (IH this1). rewrite E2 in IH. simpl in IH.
    destruct (status this) eqn:Es; simpl;
      try (rewrite H1 by discriminate;
           assert (Hn : status this1 <> IDLE)
             by (apply H3; left; discriminate);
           destruct (status this1); simpl in IH;
           [exfalso; apply Hn; reflexivity | simpl; lia ..]).
    destruct (opened l1) as [|u us] eqn:Eo; simpl in *.
    + destruct (Status_eqb (status this1) IDLE); lia.
    + assert (Hn : status this1 <> IDLE) by (apply H3; right; discriminate).
      destruct (status this1); simpl in IH;
        [exfalso; apply Hn; reflexivity | lia ..].
Qed.

(** X22.  No call ever lowers the backoff state: after any sequence of
    calls [reconnectAttempts] and [reconnectInterval] are at least what
    they were.  Nothing resets them, not even a handshake that ends in
    READY. *)
Theorem X22_the_backoff_state_never_goes_down
  (this : Shard) (calls : list Call) :
  reconnectAttempts this
  <= reconnectAttempts
       (fst (run OP_CODES websocketURL client platform calls this)) /\
  reconnectInterval this
  <= reconnectInterval
       (fst (run OP_CODES websocketURL client platform calls this)).
Proof.
  revert this. induction calls as [|c calls IH]; intros this; simpl.
  - split; lia.
  - destruct (call OP_CODES websocketURL client platform c this)
      as [[r1 this1] l1] eqn:E1.
    destruct (run OP_CODES websocketURL client platform calls this1)
      as [this2 l2] eqn:E2.
    destruct (call_opens _ _ _ _ _ E1) as (_ & _ & _ & A & I).
    specialize (IH this1). rewrite E2 in IH. simpl in *. lia.
Qed.

End ShardDisconnect.

Section ShardDisconnectExamples.

Import Gateway Shard.


Lemma X18_disconnect_cancels_the_heartbeat_witness :
  heartbeatInterval
    (state_after (disconnect Sample.client true Sample.beating)) = None /\
  intervals_cleared (effects_of (disconnect Sample.client true Sample.beating))
  = match heartbeatInterval Sample.beating with
    | Some _ => 1%nat
    | None => 0%nat
    end /\
  intervals_set (effects_of (disconnect Sample.client true Sample.beating))
  = [].
Proof.
  apply (X18_disconnect_cancels_the_heartbeat Sample.client Sample.beating
           Sample.socket true).
  reflexivity.
Defined.

Lemma X19_failed_terminate_stops_the_cleanup_witness :
  disconnect Sample.client true Sample.stuck
  = (Return tt,
     match heartbeatInterval Sample.stuck with
     | Some _ => set_heartbeatInterval None Sample.stuck
     | None => Sample.stuck
     end,
     (match heartbeatInterval Sample.stuck with
      | Some _ => [ClearInterval]
      | None => []
      end ++ [ClientEmit_shardError (id Sample.stuck)])%list).
Proof.
  apply (X19_failed_terminate_stops_the_cleanup Sample.client Sample.stuck
           Sample.stuck_socket true); reflexivity.
Defined.

Lemma X20_disconnect_forgets_the_session_witness :
  let after := state_after (disconnect Sample.client true Sample.resumable) in
  connection after = None /\
  truthy_string (sessionId after) = false /\
  (sequence after = -1 \/ sequence after = 0) /\
  status after = status Sample.resumable /\
  exists before rest,
    effects_of (disconnect Sample.client true Sample.resumable)
    = (before ++ WsTerminate :: Emit_disconnect "ASKED" :: rest)%list /\
    (before = [] \/ before = [ClearInterval]).
Proof.
  apply (X20_disconnect_forgets_the_session Sample.client Sample.resumable
           Sample.socket true); reflexivity.
Defined.

End ShardDisconnectExamples.

(** ** The manager: delivery to the handlers and the startup queue *)

Section ManagerDelivery.

Import Gateway Shard GatewayManager.

Variable OP_CODES : Gateway.OP_CODES.
Variable client : Client.
Variable platform : string.

Context {Handler : Type}.
Variable PacketHandlers : string -> option Handler.

(** X23.  A frame whose opcode is not EVENT, or whose event type is
    blocked, leads to no handler call, whatever the state of the shard
    that receives it and whatever handlers are registered. *)
Theorem X23_blocked_and_control_frames_reach_no_handler
  (this : Shard) (now : Z) (packet : Packet) :
  op packet <> EVENT OP_CODES \/
  includes (blockedEvents (options client)) (t packet) = true ->
  delivered PacketHandlers client
    (packetReceive OP_CODES client platform now packet this) = [].
Proof.
  intros H. unfold delivered.
  destruct (packetReceive_forwards OP_CODES client platform this now packet)
    as [E | (Hop & E & _)]; rewrite E; [reflexivity|].
  destruct H as [H|H]; [contradiction|].
  simpl. rewrite H. reflexivity.
Qed.

(** X24.  A dispatch frame whose event type is not blocked and has a
    handler registered leads to exactly one call of that handler, with the
    client, the frame as received, and the shard as [packetReceive] leaves
    it (its sequence already updated). *)
Theorem X24_dispatch_frames_reach_their_handler
  (this : Shard) (now : Z) (packet : Packet) (name : string)
  (handler : Handler) :
  op packet = EVENT OP_CODES ->
  t packet = t_name name ->
  name <> "READY" ->
  includes (blockedEvents (options client)) (t packet) = false ->
  PacketHandlers name = Some handler ->
  let received := packetReceive OP_CODES client platform now packet this in
  delivered PacketHandlers client received
  = [{| event := handler; arg_client := client; arg_packet := packet;
        arg_shard := state_after received |}] /\
  sent (effects_of received) = [] /\
  sequence (state_after received)
  = match s packet with
    | Some n => if n =? 0 then sequence this else n
    | None => sequence this
    end.
Proof.
  intros Hop Ht Hn Hb Hh received. subst received.
  assert (E : packetReceive OP_CODES client platform now packet this
              = (Return tt,
                 match s packet with
                 | Some n => if n =? 0 then this else set_sequence n this
                 | None => this
                 end,
                 [Manager_handlePacket packet])).
  { destruct packet as [o d0 s0 t0]. simpl in *. subst o t0.
    apply String.eqb_neq in Hn.
    unfold packetReceive, packetReceive_t, packetReceive_op,
      bind, get, modify, perform, ret, when. simpl.
    destruct s0 as [n|]; [destruct (n =? 0)|]; simpl;
      rewrite Hn; simpl; rewrite Z.eqb_refl; reflexivity. }
  rewrite E. unfold delivered, state_after, effects_of. simpl.
  rewrite Hb, Ht. simpl. rewrite Hh. simpl.
  repeat split.
  destruct (s packet) as [n|]; [destruct (n =? 0)|]; reflexivity.
Qed.

End ManagerDelivery.

Section ManagerStartup.

Import Gateway Shard GatewayManager.

Variable websocketURL : string.

(** The shard [connectShard] leaves after connecting a new shard. *)
Let connecting (id : Z) (socket : Websocket) : Shard :=
  set_status CONNECTED (set_connection (Some socket) (new id)).

Lemma startup_new_queue (ids : list Z) :
  forall sockets : list Websocket,
    ids <> [] ->
    (List.length ids <= List.length sockets)%nat ->
    List.map connected (startup websocketURL sockets (new_queue ids))
    = List.map (fun p => Some (connecting (fst p) (snd p)))
        (combine ids sockets) /\
    List.map effects (startup websocketURL sockets (new_queue ids))
    = repeat [NewWebsocket websocketURL] (List.length ids) /\
    List.map timers (startup websocketURL sockets (new_queue ids))
    = (repeat [5000] (List.length ids - 1) ++ [[]])%list.
Proof.
  induction ids as [|id ids IH]; intros sockets Hne Hlen; [congruence|].
  destruct sockets as [|socket sockets]; [simpl in Hlen; lia|].
  destruct ids as [|id' ids].
  - simpl. repeat split.
  - assert (Hlen' : (List.length (id' :: ids) <= List.length sockets)%nat)
      by (simpl in *; lia).
    destruct (IH sockets ltac:(discriminate) Hlen') as (H1 & H2 & H3).
    change (startup websocketURL (socket :: sockets)
              (new_queue (id :: id' :: ids)))
      with ({| queue := new_queue (id' :: ids);
               connected := Some (connecting id socket);
               effects := [NewWebsocket websocketURL];
               timers := [5000] |}
            :: startup websocketURL sockets (new_queue (id' :: ids))).
    cbn [List.map connected effects timers].
    rewrite H1, H2, H3. simpl. rewrite Nat.sub_0_r. repeat split.
Qed.

(** X25.  Started on a non-empty list of shard ids, with a socket at hand
    for each, [connectShard] connects one shard per call in the order of
    the list, each through a socket of its own; it sets a 5000 ms timer
    after every shard but the last, and none after the last. *)
Theorem X25_startup_connects_the_shards_in_order
  (ids : list Z) (sockets : list Websocket) :
  ids <> [] ->
  (List.length ids <= List.length sockets)%nat ->
  let attempts := startup websocketURL sockets (new_queue ids) in
  List.map connected attempts
  = List.map
      (fun p => Some (set_status CONNECTED
                        (set_connection (Some (snd p)) (new (fst p)))))
      (combine ids sockets) /\
  List.map effects attempts
  = repeat [NewWebsocket websocketURL] (List.length ids) /\
  List.map timers attempts
  = (repeat [5000] (List.length ids - 1) ++ [[]])%list.
Proof.
  intros Hne Hlen attempts.
  exact (startup_new_queue ids sockets Hne Hlen).
Qed.

Lemma startup_undefined (sockets : list Websocket) :
  startup websocketURL sockets [None]
  = repeat {| queue := [None]; connected := None; effects := [];
              timers := [5000] |} (List.length sockets).
Proof.
  induction sockets as [|socket sockets IH]; [reflexivity|].
  simpl. f_equal. exact IH.
Qed.

(** X26.  Started on an empty list of shard ids, [connectShard] never
    stops: every call finds no shard, puts [undefined] in the queue,
    connects nothing and sets the 5000 ms timer for the next call. *)
Theorem X26_startup_without_shards_never_stops (sockets : list Websocket) :
  startup websocketURL sockets (new_queue [])
  = repeat {| queue := [None]; connected := None; effects := [];
              timers := [5000] |} (List.length sockets).
Proof.
  destruct sockets as [|socket sockets]; [reflexivity|].
  simpl. f_equal. exact (startup_undefined sockets).
Qed.

End ManagerStartup.

Section ManagerExamples.

Import Gateway Shard GatewayManager.

Lemma X23_blocked_and_control_frames_reach_no_handler_witness :
  delivered Sample.PacketHandlers Sample.client
    (packetReceive Sample.OP_CODES Sample.client Sample.platform 1
       (Sample.dispatch "TYPING_START") Sample.open) = [].
Proof.
  apply (X23_blocked_and_control_frames_reach_no_handler Sample.OP_CODES
           Sample.client Sample.platform Sample.PacketHandlers Sample.open 1
           (Sample.dispatch "TYPING_START")).
  right. reflexivity.
Defined.

Lemma X24_dispatch_frames_reach_their_handler_witness :
  let received :=
    packetReceive Sample.OP_CODES Sample.client Sample.platform 1
      (Sample.dispatch "MESSAGE_CREATE") Sample.open in
  delivered Sample.PacketHandlers Sample.client received
  = [{| event := "onMessageCreate"; arg_client := Sample.client;
        arg_packet := Sample.dispatch "MESSAGE_CREATE";
        arg_shard := state_after received |}] /\
  sent (effects_of received) = [] /\
  sequence (state_after received)
  = match s (Sample.dispatch "MESSAGE_CREATE") with
    | Some n => if n =? 0 then sequence Sample.open else n
    | None => sequence Sample.open
    end.
Proof.
  apply (X24_dispatch_frames_reach_their_handler Sample.OP_CODES
           Sample.client Sample.platform Sample.PacketHandlers Sample.open 1
           (Sample.dispatch "MESSAGE_CREATE") "MESSAGE_CREATE"
           "onMessageCreate"); try reflexivity.
  discriminate.
Defined.

Lemma X25_startup_connects_the_shards_in_order_witness :
  let attempts :=
    startup Sample.websocketURL [Sample.socket; Sample.stuck_socket]
      (new_queue [0; 1]) in
  List.map connected attempts
  = List.map
      (fun p => Some (set_status CONNECTED
                        (set_connection (Some (snd p)) (new (fst p)))))
      (combine [0; 1] [Sample.socket; Sample.stuck_socket]) /\
  List.map effects attempts
  = repeat [NewWebsocket Sample.websocketURL] (List.length [0; 1]) /\
  List.map timers attempts
  = (repeat [5000] (List.length [0; 1] - 1) ++ [[]])%list.
Proof.
  apply (X25_startup_connects_the_shards_in_order Sample.websocketURL
           [0; 1] [Sample.socket; Sample.stuck_socket]).
  - discriminate.
  - simpl. lia.
Defined.

End ManagerExamples.
